(** * timetable_checker: grid ingestion and pattern detection

    A shallow embedding of [timetable_checker.py] and the properties of its
    day-block locator, cell normalizer, teacher-grid builder and pattern
    analyzer, of the report it prints and of the integer lists its form
    reads.

    Python [str] values are sequences of Unicode code points, and the
    standard functions the program calls on them ([str.strip], [str.isdigit],
    [int], the [re] classes [\s] and [\d]) are defined on code points, so a
    text is a list of code points here.  Dictionaries are [gmap]s, Python
    sets are [gset]s, exceptions are an error result, and the code that
    reads or writes a dictionary shared with its caller runs in a small
    state-and-exception monad over that dictionary. *)

From Stdlib Require Import ZArith NArith String Ascii DecimalString DecimalPos.
From stdpp Require Import base option list gmap sets fin_maps sorting.

Local Open Scope Z_scope.

(** ** Python text *)

Module PyStr.

Abbreviation char := N (only parsing).
Abbreviation pystr := (list N) (only parsing).

(** Literals are written as UTF-8 Rocq strings and decoded once. *)
Fixpoint utf8_go (need : nat) (acc : N) (bs : list N) : pystr :=
  match bs with
  | [] => []
  | b :: bs' =>
      if (b <? 128)%N then b :: utf8_go 0 0 bs'
      else if (b <? 192)%N then
        let acc' := (acc * 64 + (b - 128))%N in
        match need with
        | 1%nat => acc' :: utf8_go 0 0 bs'
        | S n => utf8_go n acc' bs'
        | O => utf8_go 0 0 bs'
        end
      else if (b <? 224)%N then utf8_go 1 (b - 192)%N bs'
      else if (b <? 240)%N then utf8_go 2 (b - 224)%N bs'
      else utf8_go 3 (b - 240)%N bs'
  end.

Definition py (s : string) : pystr :=
  utf8_go 0 0 (N_of_ascii <$> list_ascii_of_string s).

Definition LF : char := 10%N.
Definition CR : char := 13%N.
Definition LPAREN : char := 40%N.
Definition RPAREN : char := 41%N.

(** [str.isspace] on one code point (Unicode 14 as shipped with CPython
    3.11); [str.strip()] and the [re] class [\s] on [str] patterns use the
    same table. *)
Definition is_space (c : char) : bool :=
  ((9 <=? c) && (c <=? 13) || (28 <=? c) && (c <=? 32)
   || (c =? 133) || (c =? 160) || (c =? 5760)
   || (8192 <=? c) && (c <=? 8202)
   || (c =? 8232) || (c =? 8233) || (c =? 8239) || (c =? 8287)
   || (c =? 12288))%N.

(** The zero digits of the Unicode general category Nd; every block has
    ten consecutive code points with the values 0 to 9. *)
Definition decimal_zeros : list N :=
  [48; 1632; 1776; 1984; 2406; 2534; 2662; 2790; 2918; 3046; 3174; 3302;
   3430; 3558; 3664; 3792; 3872; 4160; 4240; 6112; 6160; 6470; 6608; 6784;
   6800; 6992; 7088; 7232; 7248; 42528; 43216; 43264; 43472; 43504; 43600;
   44016; 65296; 66720; 68912; 69734; 69872; 69942; 70096; 70384; 70736;
   70864; 71248; 71360; 71472; 71904; 72016; 72784; 73040; 73120; 92768;
   92864; 93008; 120782; 120792; 120802; 120812; 120822; 123200; 123632;
   125264; 130032]%N.

(** [unicodedata.decimal]: the value of a decimal digit. *)
Definition decimal_value (c : char) : option N :=
  match find (fun z => (z <=? c)%N && (c <? z + 10)%N) decimal_zeros with
  | Some z => Some (c - z)%N
  | None => None
  end.

(** The [re] class [\d] on [str] patterns, and [str.isdecimal]. *)
Definition is_decimal (c : char) : bool :=
  match decimal_value c with Some _ => true | None => false end.

(** Code points with Numeric_Type=Digit that are not decimal (superscripts,
    circled digits and the like). *)
Definition other_digit_ranges : list (N * N) :=
  [(178, 179); (185, 185); (4969, 4977); (6618, 6618); (8304, 8304);
   (8308, 8313); (8320, 8329); (9312, 9320); (9332, 9340); (9352, 9360);
   (9450, 9450); (9461, 9469); (9471, 9471); (10102, 10110);
   (10112, 10120); (10122, 10130); (68160, 68163); (69216, 69224);
   (69714, 69722); (127232, 127242)]%N.

(** [str.isdigit] on one code point. *)
Definition is_digit (c : char) : bool :=
  is_decimal c
  || existsb (fun r => (r.1 <=? c)%N && (c <=? r.2)%N) other_digit_ranges.

(** [s.isdigit()]: all characters are digits and there is at least one. *)
Definition isdigit (s : pystr) : bool :=
  match s with [] => false | _ => forallb is_digit s end.

(** [s.strip()] *)
Fixpoint lstrip (s : pystr) : pystr :=
  match s with
  | c :: s' => if is_space c then lstrip s' else s
  | [] => []
  end.

Definition rstrip (s : pystr) : pystr := reverse (lstrip (reverse s)).

Definition strip (s : pystr) : pystr := rstrip (lstrip s).

(** [s.startswith(p)] *)
Fixpoint startswith (p s : pystr) : bool :=
  match p, s with
  | [], _ => true
  | a :: p', b :: s' => (a =? b)%N && startswith p' s'
  | _ :: _, [] => false
  end.

(** [s.replace(old, new)] for a non-empty [old]: the occurrences are
    replaced from left to right and do not overlap; [skip] counts the
    characters of the occurrence just replaced that are still to pass. *)
Fixpoint replace_go (old new : pystr) (skip : nat) (s : pystr) : pystr :=
  match s with
  | [] => []
  | c :: s' =>
      match skip with
      | S k => replace_go old new k s'
      | O =>
          if startswith old s
          then new ++ replace_go old new (length old - 1) s'
          else c :: replace_go old new 0 s'
      end
  end.

Definition replace (old new s : pystr) : pystr := replace_go old new 0 s.

(** [s.split("\n", 1)[0]]: the text before the first line feed. *)
Fixpoint first_line (s : pystr) : pystr :=
  match s with
  | c :: s' => if (c =? LF)%N then [] else c :: first_line s'
  | [] => []
  end.

(** [sep.join(parts)] *)
Fixpoint join (sep : pystr) (parts : list pystr) : pystr :=
  match parts with
  | [] => []
  | [p] => p
  | p :: rest => p ++ sep ++ join sep rest
  end.

(** [str(n)] for an [int] *)
Definition str_of_Z (z : Z) : pystr :=
  py (NilZero.string_of_int (Z.to_int z)).

(** [int(s)] for a text that passed [isdigit]: it succeeds exactly when
    every character is a decimal digit, and raises [ValueError] otherwise
    (signs, blanks and underscores are not digits, so they do not occur). *)
Fixpoint int_go (acc : Z) (s : pystr) : option Z :=
  match s with
  | [] => Some acc
  | c :: s' =>
      match decimal_value c with
      | Some v => int_go (10 * acc + Z.of_N v) s'
      | None => None
      end
  end.

Definition int_of_digits (s : pystr) : option Z :=
  match s with [] => None | _ => int_go 0 s end.

(** *** The fragment of [re] the program uses

    A pattern is a sequence of atoms: one character of a class, a greedy
    repetition of a class, the markers of the capture group, and the two
    anchors.  Matching backtracks: a greedy repetition first takes as many
    characters as it can and gives them back one at a time while the rest of
    the pattern fails. *)

Inductive atom :=
| AChar (cls : char -> bool)
| AStar (cls : char -> bool)
| APlus (cls : char -> bool)
| AGroupOpen
| AGroupClose
| ABegin
| AEnd.

Definition regex : Type := list atom.

(** The result of a match: the position where it ends and the span of
    group 1. *)
Definition span : Type := (nat * nat)%type.
Definition mresult : Type := (nat * option span)%type.

(** [$] without [re.MULTILINE]: at the end of the text, or just before a
    line feed that ends it. *)
Definition at_end (s : pystr) : bool :=
  match s with
  | [] => true
  | [c] => (c =? LF)%N
  | _ => false
  end.

Fixpoint greedy (cls : char -> bool) (k : nat -> pystr -> option mresult)
    (pos : nat) (s : pystr) : option mresult :=
  match s with
  | c :: s' =>
      if cls c then
        match greedy cls k (S pos) s' with
        | Some r => Some r
        | None => k pos s
        end
      else k pos s
  | [] => k pos []
  end.

(** [match_here re gopen grp pos s]: match [re] against the text whose
    suffix from position [pos] is [s]. *)
Fixpoint match_here (re : regex) (gopen : nat) (grp : option span)
    (pos : nat) (s : pystr) : option mresult :=
  match re with
  | [] => Some (pos, grp)
  | AChar cls :: re' =>
      match s with
      | c :: s' => if cls c then match_here re' gopen grp (S pos) s' else None
      | [] => None
      end
  | AStar cls :: re' => greedy cls (match_here re' gopen grp) pos s
  | APlus cls :: re' =>
      match s with
      | c :: s' =>
          if cls c then greedy cls (match_here re' gopen grp) (S pos) s'
          else None
      | [] => None
      end
  | AGroupOpen :: re' => match_here re' pos grp pos s
  | AGroupClose :: re' => match_here re' gopen (Some (gopen, pos)) pos s
  | ABegin :: re' =>
      match pos with O => match_here re' gopen grp pos s | S _ => None end
  | AEnd :: re' => if at_end s then match_here re' gopen grp pos s else None
  end.

(** [re.match(re, s)] *)
Definition re_match (re : regex) (s : pystr) : option mresult :=
  match_here re 0 None 0 s.

(** [m.group(1)] of a match in [s] *)
Definition group1 (s : pystr) (m : mresult) : option pystr :=
  match m.2 with
  | Some (b, e) => Some (take (e - b) (drop b s))
  | None => None
  end.

(** [re.sub(re, "", s)] for a pattern whose matches are never empty: the
    leftmost match is searched from each position in turn, a match is
    deleted and the search goes on behind it.  [skip] counts the characters
    of the match being deleted that are still to pass. *)
Fixpoint sub_go (re : regex) (skip pos : nat) (s : pystr) : pystr :=
  match s with
  | [] => []
  | c :: s' =>
      match skip with
      | S k => sub_go re k (S pos) s'
      | O =>
          match match_here re 0 None pos s with
          | Some (e, _) =>
              if (pos <? e)%nat then sub_go re (e - pos - 1) (S pos) s'
              else c :: sub_go re 0 (S pos) s'
          | None => c :: sub_go re 0 (S pos) s'
          end
      end
  end.

Definition re_sub_delete (re : regex) (s : pystr) : pystr := sub_go re 0 0 s.

End PyStr.
Export PyStr.

(** ** Exceptions *)

Inductive exn :=
| ParseError (msg : pystr)
| KeyError
| ValueError
| IndexError
| TypeError.

Inductive pyresult (A : Type) :=
| Ok (a : A)
| Raise (e : exn).
Arguments Ok {A} a.
Arguments Raise {A} e.

(** ** Names and cells *)

Definition DAYS_ORDER : list pystr :=
  Eval vm_compute in [py "월"; py "화"; py "수"; py "목"; py "금"].

(** [r"\s*\([^)]*\)\s*$"] *)
Definition annotation_re : regex :=
  [AStar is_space; AChar (N.eqb LPAREN);
   AStar (fun c => negb (c =? RPAREN)%N); AChar (N.eqb RPAREN);
   AStar is_space; AEnd].

Definition normalize_teacher_name (raw_name : pystr) : pystr :=
  let name := strip raw_name in
  let name := re_sub_delete annotation_re name in
  strip name.

Definition normalize_cell_text (value : pystr) : pystr :=
  let text := replace (py "_x000D_" ++ [LF]) [LF] value in
  let text := replace [CR] [LF] (replace [CR; LF] [LF] text) in
  text.

(** The value of a worksheet cell: absent, a text, an integer, or another
    scalar (a float, a boolean, a date), of which the program only ever
    takes the [str()] rendering. *)
Inductive value :=
| VNone
| VStr (s : pystr)
| VInt (z : Z)
| VOther (text : pystr).

(** [str(v)] *)
Definition py_str (v : value) : pystr :=
  match v with
  | VNone => py "None"
  | VStr s => s
  | VInt z => str_of_Z z
  | VOther text => text
  end.

(** [r"^\s*(\d+)"] *)
Definition cell_re : regex :=
  [ABegin; AStar is_space; AGroupOpen; APlus is_decimal; AGroupClose].

Definition parse_cell_to_class (v : value) : option pystr :=
  match v with
  | VStr s =>
      let text := normalize_cell_text s in
      let line := first_line text in
      match re_match cell_re line with
      | None => None
      | Some m => group1 line m
      end
  | _ => None
  end.

Definition format_class_code (code : pystr) : pyresult pystr :=
  if (length code =? 3)%nat && isdigit code then
    let grade := take 1 code in
    match int_of_digits (drop 1 code) with
    | Some class_no =>
        Ok (grade ++ py "학년 " ++ str_of_Z class_no ++ py "반("
              ++ code ++ py ")")
    | None => Raise ValueError
    end
  else Ok (py "(" ++ code ++ py ")").

(** ** The grid source

    A worksheet: [cell(row, column).value] and the extent, which [getattr]
    reads with a default, so an absent or [None] extent counts as 0. *)

Record Sheet := {
  max_row : option Z;
  max_column : option Z;
  cell : Z -> Z -> value
}.

Record DayBlock := { day : pystr; start_col : Z }.

(** ** Day-block locator *)

Definition detect_step (sheet : Sheet)
    (st : list DayBlock * gset pystr) (col : Z) : list DayBlock * gset pystr :=
  let '(day_blocks, seen) := st in
  let v := cell sheet 2 col in
  let v := match v with VStr s => VStr (strip s) | _ => v end in
  match v with
  | VStr s =>
      if bool_decide (s ∈ DAYS_ORDER) && negb (bool_decide (s ∈ seen))
      then (day_blocks ++ [{| day := s; start_col := col |}], {[s]} ∪ seen)
      else st
  | _ => st
  end.

Definition no_day_blocks : pystr :=
  Eval vm_compute in py "요일 블록을 찾을 수 없습니다.".

Definition detect_day_blocks (sheet : Sheet) : pyresult (list DayBlock) :=
  let max_col := default 0 (max_column sheet) in
  let '(day_blocks, _) :=
    fold_left (detect_step sheet) (seqZ 1 max_col) ([], ∅) in
  match day_blocks with
  | [] => Raise (ParseError no_day_blocks)
  | _ => Ok day_blocks
  end.

(** ** The teacher -> day -> period -> class code dictionary, and the
    monad of the code that works on it *)

Abbreviation Periods := (gmap Z (option (list N))) (only parsing).
Abbreviation Schedule :=
  (gmap (list N) (gmap Z (option (list N)))) (only parsing).
Abbreviation Data :=
  (gmap (list N) (gmap (list N) (gmap Z (option (list N))))) (only parsing).

Definition M (A : Type) : Type := Data -> pyresult A * Data.

Definition ret {A} (a : A) : M A := fun d => (Ok a, d).

Definition bind {A B} (m : M A) (k : A -> M B) : M B :=
  fun d =>
    match m d with
    | (Ok a, d') => k a d'
    | (Raise e, d') => (Raise e, d')
    end.

Definition raise {A} (e : exn) : M A := fun d => (Raise e, d).

Definition lift {A} (r : pyresult A) : M A := fun d => (r, d).

Notation "'let*' x ':=' m 'in' k" := (bind m (fun x => k))
  (at level 10, x name, m at level 100, k at level 200, only parsing).
Notation "'let*' ' p ':=' m 'in' k" :=
  (bind m (fun x => match x with p => k end))
  (at level 10, p pattern, m at level 100, k at level 200, only parsing).

(** [for x in l: acc = body(acc, x)] *)
Fixpoint for_each {A B} (body : B -> A -> M B) (l : list A) (acc : B) : M B :=
  match l with
  | [] => ret acc
  | a :: l' => let* acc' := body acc a in for_each body l' acc'
  end.

(** [[f(x) for x in l]] *)
Fixpoint map_each {A B} (f : A -> M B) (l : list A) : M (list B) :=
  match l with
  | [] => ret []
  | a :: l' => let* b := f a in let* bs := map_each f l' in ret (b :: bs)
  end.

(** [all(f(x) for x in l)]: stops at the first [False]. *)
Fixpoint all_each {A} (f : A -> M bool) (l : list A) : M bool :=
  match l with
  | [] => ret true
  | a :: l' => let* b := f a in if b then all_each f l' else ret false
  end.

(** [name in data] *)
Definition contains (name : pystr) : M bool :=
  fun d => (Ok (bool_decide (is_Some (d !! name))), d).

(** [{day: {p: None for p in range(1, 8)} for day in DAYS_ORDER}] *)
Definition empty_periods : Periods :=
  fold_left (fun m p => <[p := None]> m) (seqZ 1 7) ∅.

Definition empty_schedule : Schedule :=
  fold_left (fun m day => <[day := empty_periods]> m) DAYS_ORDER ∅.

(** [data[name] = sched] *)
Definition store_teacher (name : pystr) (sched : Schedule) : M unit :=
  fun d => (Ok tt, <[name := sched]> d).

(** [data[name][day][period] = code]: the two subscripts that are read
    raise [KeyError] on a missing key. *)
Definition store_slot (name day : pystr) (period : Z)
    (code : option pystr) : M unit :=
  fun d =>
    match d !! name with
    | None => (Raise KeyError, d)
    | Some sched =>
        match sched !! day with
        | None => (Raise KeyError, d)
        | Some periods =>
            (Ok tt, <[name := <[day := <[period := code]> periods]> sched]> d)
        end
    end.

(** [day_map.get(day, {}).get(p)], where [day_map] is the object
    [data[teacher]] that [data.items()] handed out: a missing day reads as
    an empty dictionary and a missing period as [None]. *)
Definition lookup_slot (d : Data) (teacher day : pystr) (p : Z)
    : option pystr :=
  let day_map := default ∅ (d !! teacher) in
  let periods := default ∅ (day_map !! day) in
  default None (periods !! p).

Definition read_slot (teacher day : pystr) (p : Z) : M (option pystr) :=
  fun d => (Ok (lookup_slot d teacher day p), d).

(** [data.items()] *)
Definition items : M (list (pystr * Schedule)) :=
  fun d => (Ok (map_to_list d), d).

(** ** Teacher-grid builder *)

(** The three guards that skip a row, and the name of a row that is kept. *)
Definition row_teacher (sheet : Sheet) (row : Z) : option pystr :=
  let teacher_cell := cell sheet row 1 in
  match teacher_cell with
  | VNone => None
  | _ =>
      if match teacher_cell with
         | VStr s => bool_decide (strip s = [])
         | _ => false
         end
      then None
      else
        let teacher_name := normalize_teacher_name (py_str teacher_cell) in
        if bool_decide (teacher_name = []) then None else Some teacher_name
  end.

Definition parse_row (sheet : Sheet) (day_blocks : list DayBlock)
    (_ : unit) (row : Z) : M unit :=
  match row_teacher sheet row with
  | None => ret tt
  | Some teacher_name =>
      let* known := contains teacher_name in
      let* _ := (if known then ret tt
                 else store_teacher teacher_name empty_schedule) in
      for_each (fun _ block =>
        for_each (fun _ period =>
          let col := start_col block + period - 1 in
          let v := cell sheet row col in
          let class_code := parse_cell_to_class v in
          store_slot teacher_name (day block) period class_code)
          (seqZ 1 7) tt)
        day_blocks tt
  end.

Definition parse_teacher_rows (sheet : Sheet) (day_blocks : list DayBlock)
    : pyresult Data :=
  let max_row := default 0 (max_row sheet) in
  match for_each (parse_row sheet day_blocks) (seqZ 4 (max_row - 3)) tt ∅ with
  | (Ok _, data) => Ok data
  | (Raise e, _) => Raise e
  end.

(** ** Pattern analyzer *)

Record MatchA := {
  ma_day : pystr;
  ma_start : Z;
  ma_end : Z;
  ma_class_code : pystr
}.

Record Trigger := { triggered : bool; days : list pystr }.

Record TeacherSummary := {
  patternA : list MatchA;
  patternB : Trigger;
  patternC : Trigger
}.

(** The three message texts. *)
Definition message_a (teacher day : pystr) (start stop : Z)
    (class_text : pystr) : pystr :=
  py "이 시간표는 " ++ teacher ++ py " 선생님이 " ++ day ++ py "요일에 "
    ++ str_of_Z start ++ py "~" ++ str_of_Z stop ++ py "교시 연속 "
    ++ class_text ++ py "입니다.".

Definition message_b (teacher : pystr) (min_days : Z)
    (periods_text days_text : pystr) : pystr :=
  py "이 시간표는 " ++ teacher ++ py " 선생님이 "
    ++ str_of_Z (Z.of_nat (length DAYS_ORDER)) ++ py "일 중 "
    ++ str_of_Z min_days ++ py "일 이상 (" ++ periods_text
    ++ py ")교시에 수업이 있는 시간표입니다. (해당 요일: " ++ days_text ++ py ")".

Definition message_c (teacher : pystr) (min_days : Z)
    (days_text : pystr) : pystr :=
  py "이 시간표는 " ++ teacher ++ py " 선생님이 "
    ++ str_of_Z (Z.of_nat (length DAYS_ORDER)) ++ py "일 중 "
    ++ str_of_Z min_days
    ++ py "일 이상 7교시에 수업이 있는 시간표입니다. (해당 요일: "
    ++ days_text ++ py ")".

Abbreviation KeyA := (list N * Z * Z * list N)%type (only parsing).

(** The state of the Pattern A loops: [seen_a], [teacher_msgs] and
    [teacher_summary["patternA"]]. *)
Abbreviation StateA :=
  (gset (list N * Z * Z * list N) * list (list N) * list MatchA)%type
  (only parsing).

(** The body of [for start in range(1, max_start + 1)]. *)
Definition pattern_a_window (teacher : pystr) (consecutive_len : Z)
    (d : pystr) (st : StateA) (start : Z) : M StateA :=
  let '(seen_a, teacher_msgs, pa) := st in
  let* window :=
    map_each (fun p => read_slot teacher d p) (seqZ start consecutive_len) in
  if existsb (fun code => bool_decide (code = None)) window then ret st
  else if bool_decide (size (list_to_set window : gset (option pystr)) = 1%nat)
  then
    match window with
    | [] => raise IndexError
    | None :: _ => raise TypeError
    | Some class_code :: _ =>
        let key := (d, start, start + consecutive_len - 1, class_code) in
        if bool_decide (key ∈ seen_a) then ret st
        else
          let seen_a := {[key]} ∪ seen_a in
          let* class_text := lift (format_class_code class_code) in
          ret (seen_a,
               teacher_msgs ++
                 [message_a teacher d start (start + consecutive_len - 1)
                    class_text],
               pa ++
                 [{| ma_day := d; ma_start := start;
                     ma_end := start + consecutive_len - 1;
                     ma_class_code := class_code |}])
    end
  else ret st.

(** The body of [for day in DAYS_ORDER] of Pattern A. *)
Definition pattern_a_day (teacher : pystr) (consecutive_len : Z)
    (st : StateA) (d : pystr) : M StateA :=
  let max_start := 7 - consecutive_len + 1 in
  for_each (pattern_a_window teacher consecutive_len d) (seqZ 1 max_start) st.

(** The [matched_days] loop of Pattern B. *)
Definition pattern_b_day (teacher : pystr) (target_periods : list Z)
    (matched_days : list pystr) (d : pystr) : M (list pystr) :=
  let* ok :=
    all_each (fun p =>
      let* code := read_slot teacher d p in
      ret (negb (bool_decide (code = None)))) target_periods in
  ret (if ok then matched_days ++ [d] else matched_days).

(** The [matched_days] loop of Pattern C. *)
Definition pattern_c_day (teacher : pystr)
    (matched_days : list pystr) (d : pystr) : M (list pystr) :=
  let* code := read_slot teacher d 7 in
  ret (if negb (bool_decide (code = None)) then matched_days ++ [d]
       else matched_days).

Definition COMMA : pystr := [44%N].

(** The body of [for teacher, day_map in data.items()], up to the two
    result dictionaries. *)
Definition analyze_teacher (teacher : pystr) (consecutive_len : Z)
    (target_periods : list Z) (min_days : Z) (check_period7 : bool)
    : M (list pystr * TeacherSummary) :=
  let teacher_msgs : list pystr := [] in
  let teacher_summary :=
    {| patternA := [];
       patternB := {| triggered := false; days := [] |};
       patternC := {| triggered := false; days := [] |} |} in
  (* Pattern A *)
  let* '(_, teacher_msgs, pa) :=
    for_each (pattern_a_day teacher consecutive_len) DAYS_ORDER
      (∅, teacher_msgs, patternA teacher_summary) in
  let teacher_summary :=
    {| patternA := pa; patternB := patternB teacher_summary;
       patternC := patternC teacher_summary |} in
  (* Pattern B *)
  let* matched_days :=
    for_each (pattern_b_day teacher target_periods) DAYS_ORDER [] in
  let '(teacher_msgs, teacher_summary) :=
    if Z.of_nat (length matched_days) >=? min_days then
      let days_text := join COMMA matched_days in
      let periods_text := join COMMA (str_of_Z <$> target_periods) in
      (teacher_msgs ++ [message_b teacher min_days periods_text days_text],
       {| patternA := patternA teacher_summary;
          patternB := {| triggered := true; days := matched_days |};
          patternC := patternC teacher_summary |})
    else (teacher_msgs, teacher_summary) in
  (* Pattern C *)
  if check_period7 then
    let* matched_days := for_each (pattern_c_day teacher) DAYS_ORDER [] in
    if Z.of_nat (length matched_days) >=? min_days then
      let days_text := join COMMA matched_days in
      ret (teacher_msgs ++ [message_c teacher min_days days_text],
           {| patternA := patternA teacher_summary;
              patternB := patternB teacher_summary;
              patternC := {| triggered := true; days := matched_days |} |})
    else ret (teacher_msgs, teacher_summary)
  else ret (teacher_msgs, teacher_summary).

Abbreviation Messages := (gmap (list N) (list (list N))) (only parsing).
Abbreviation Summary := (gmap (list N) TeacherSummary) (only parsing).

Definition analyze_step (consecutive_len : Z) (target_periods : list Z)
    (min_days : Z) (check_period7 : bool)
    (acc : Messages * Summary) (item : pystr * Schedule)
    : M (Messages * Summary) :=
  let '(messages, summary) := acc in
  let teacher := item.1 in
  let* '(teacher_msgs, teacher_summary) :=
    analyze_teacher teacher consecutive_len target_periods min_days
      check_period7 in
  let messages :=
    match teacher_msgs with
    | [] => messages
    | _ => <[teacher := teacher_msgs]> messages
    end in
  ret (messages, <[teacher := teacher_summary]> summary).

(** [analyze_patterns(data, ...)]: [data] is the dictionary the monad
    carries, so the second component of a run is what the caller's
    dictionary holds afterwards.  Python walks [data.items()] in insertion
    order and [map_to_list] in the order of the keys; both results are
    dictionaries, which do not record it. *)
Definition analyze_patterns (consecutive_len : Z) (target_periods : list Z)
    (min_days : Z) (check_period7 : bool) : M (Messages * Summary) :=
  let messages : Messages := ∅ in
  let summary : Summary := ∅ in
  let* its := items in
  for_each (analyze_step consecutive_len target_periods min_days
              check_period7) its (messages, summary).

(** ** The in-memory worksheet of the self-test *)

(** [l[i]] with Python's negative subscripts; [None] stands for
    [IndexError]. *)
Definition py_index {A} (l : list A) (i : Z) : option A :=
  if i <? 0 then
    if 0 <=? Z.of_nat (length l) + i
    then l !! Z.to_nat (Z.of_nat (length l) + i) else None
  else l !! Z.to_nat i.

Definition FakeWorksheet (data : list (list value)) : Sheet :=
  {| max_row := Some (Z.of_nat (length data));
     max_column := Some (Z.of_nat (foldr Nat.max 0%nat (length <$> data)));
     cell := fun row column =>
       match py_index data (row - 1) with
       | Some r => default VNone (py_index r (column - 1))
       | None => VNone
       end |}.

(** [data[r][c] = v] *)
Definition set_cell (r c : nat) (v : value) (data : list (list value))
    : list (list value) :=
  alter (fun row => <[c := v]> row) r data.

Definition index_of_day (d : pystr) : nat :=
  default 0%nat (fst <$> list_find (fun x => x = d) DAYS_ORDER).

Definition build_sample_sheet_for_tests : Sheet :=
  let data := replicate 6 (replicate 36 VNone) in
  let data := set_cell 0 0 (VStr (py "제목")) data in
  let data :=
    fold_left (fun data '(idx, d) => set_cell 1 (1 + idx * 7) (VStr d) data)
      (imap pair DAYS_ORDER) data in
  let data :=
    fold_left (fun data idx =>
      fold_left (fun data p =>
        set_cell 2 (1 + idx * 7 + p) (VInt (Z.of_nat p + 1)) data)
        (seq 0 7) data)
      (seq 0 (length DAYS_ORDER)) data in
  let data := set_cell 3 0 (VStr (py "홍길동(1)")) data in
  let wed_start := (1 + index_of_day (py "수") * 7)%nat in
  let data :=
    fold_left (fun data p =>
      set_cell 3 (wed_start + p) (VStr (py "101" ++ [LF] ++ py "국어")) data)
      (seq 0 4) data in
  let data :=
    fold_left (fun data d =>
      let start := (1 + index_of_day d * 7)%nat in
      fold_left (fun data p =>
        set_cell 3 (start + p - 1) (VStr (py "203" ++ [LF] ++ py "수학")) data)
        [1; 4; 5; 7]%nat data)
      [py "월"; py "수"; py "금"] data in
  let data :=
    fold_left (fun data d =>
      let start := (1 + index_of_day d * 7)%nat in
      set_cell 3 (start + 6) (VStr (py "305" ++ [LF] ++ py "영어")) data)
      [py "화"; py "목"; py "금"] data in
  FakeWorksheet data.

(** ** The report *)

(** [a <= b] on [str]: by code points from the left, a proper prefix
    first. *)
Fixpoint str_le (a b : pystr) : bool :=
  match a, b with
  | [], _ => true
  | _ :: _, [] => false
  | x :: a', y :: b' =>
      if (x <? y)%N then true
      else if (x =? y)%N then str_le a' b' else false
  end.

Definition str_le_rel (a b : pystr) : Prop := str_le a b = true.

Global Instance str_le_rel_dec a b : Decision (str_le_rel a b).
Proof. unfold str_le_rel. apply _. Defined.

(** [sorted(l)] for texts.  The keys of a dictionary are distinct, so the
    result is their one ascending arrangement, whichever algorithm sorts
    them. *)
Definition sorted (l : list pystr) : list pystr := merge_sort str_le_rel l.

Definition no_pattern_found : pystr :=
  Eval vm_compute in py "문제 패턴이 발견되지 않았습니다.".

(** [messages[teacher]] is read for the keys of [messages] only, so the
    subscript finds its key. *)
Definition format_report (messages : Messages) : pystr :=
  if bool_decide (messages = ∅) then no_pattern_found
  else
    let lines : list pystr := [] in
    let lines :=
      fold_left (fun lines teacher =>
        let lines := lines ++ [py "=== " ++ teacher ++ py " 선생님 ==="] in
        fold_left (fun lines msg => lines ++ [py "- " ++ msg])
          (default [] (messages !! teacher)) lines)
        (sorted (map_to_list messages).*1) lines in
    join [LF] lines.

(** ** The integer lists of the form *)

(** [s.split(sep)] for a separator of one character *)
Fixpoint split_on (sep : char) (s : pystr) : list pystr :=
  match s with
  | [] => [[]]
  | c :: s' =>
      if (c =? sep)%N then [] :: split_on sep s'
      else
        match split_on sep s' with
        | p :: ps => (c :: p) :: ps
        | [] => [[c]]
        end
  end.

(** The white space [int] passes over at the two ends of its argument:
    that of [str.isspace] without the four separators U+001C to U+001F. *)
Definition int_space (c : char) : bool :=
  (is_space c && negb ((28 <=? c) && (c <=? 31)))%N.

Fixpoint lstrip_by (cls : char -> bool) (s : pystr) : pystr :=
  match s with
  | c :: s' => if cls c then lstrip_by cls s' else s
  | [] => []
  end.

Definition strip_by (cls : char -> bool) (s : pystr) : pystr :=
  reverse (lstrip_by cls (reverse (lstrip_by cls s))).

(** The digits of an integer literal after the first one: decimal digits,
    with single underscores between them. *)
Fixpoint int_digits (acc : Z) (s : pystr) : option Z :=
  match s with
  | [] => Some acc
  | c :: s' =>
      if (c =? 95)%N then
        match s' with
        | c' :: s'' =>
            match decimal_value c' with
            | Some v => int_digits (10 * acc + Z.of_N v) s''
            | None => None
            end
        | [] => None
        end
      else
        match decimal_value c with
        | Some v => int_digits (10 * acc + Z.of_N v) s'
        | None => None
        end
  end.

Definition int_unsigned (s : pystr) : option Z :=
  match s with
  | c :: s' =>
      match decimal_value c with
      | Some v => int_digits (Z.of_N v) s'
      | None => None
      end
  | [] => None
  end.

(** [sys.get_int_max_str_digits()] as CPython 3.11 sets it: [int] refuses a
    text with more digits, and so does [str] an integer with more (a bound
    that [str_of_Z] leaves out: it renders every integer). *)
Definition int_max_str_digits : nat := 4300.

(** [int(s)] for a text, in base 10: white space at the ends, a sign, and
    decimal digits of any script with single underscores between them;
    anything else raises [ValueError]. *)
Definition int_of_text (s : pystr) : pyresult Z :=
  let s := strip_by int_space s in
  let r :=
    match s with
    | c :: s' =>
        if (c =? 43)%N then int_unsigned s'
        else if (c =? 45)%N then Z.opp <$> int_unsigned s'
        else int_unsigned s
    | [] => None
    end in
  match r with
  | Some z =>
      if (int_max_str_digits
          <? length (filter (fun c => is_decimal c = true) s))%nat
      then Raise ValueError
      else Ok z
  | None => Raise ValueError
  end.

(** [[int(p) for p in parts]] *)
Fixpoint int_each (parts : list pystr) : pyresult (list Z) :=
  match parts with
  | [] => Ok []
  | p :: parts' =>
      match int_of_text p with
      | Ok z =>
          match int_each parts' with
          | Ok zs => Ok (z :: zs)
          | Raise e => Raise e
          end
      | Raise e => Raise e
      end
  end.

(** [parse_int_list] of the form: the text of a field, split at the
    commas, the blank pieces dropped. *)
Definition parse_int_list (value : pystr) : pyresult (list Z) :=
  let parts :=
    strip <$> filter (fun p => strip p ≠ []) (split_on 44%N value) in
  int_each parts.

(** * Properties *)

(** ** The vocabulary of the statements *)

(** *** Class codes and dictionaries of them *)

(** A class code as the cell normalizer produces it: a non-empty run of
    decimal digits. *)
Definition class_code (code : pystr) : Prop :=
  code ≠ [] ∧ Forall (fun c => is_decimal c = true) code.

Global Instance class_code_dec code : Decision (class_code code).
Proof. unfold class_code. apply _. Defined.

(** What a slot of a schedule may hold: [None] or a class code. *)
Definition slot_ok (v : option pystr) : Prop :=
  match v with Some code => class_code code | None => True end.

Global Instance slot_ok_dec v : Decision (slot_ok v).
Proof. destruct v; apply _. Defined.

(** Every value stored in the dictionary is one. *)
Definition wf_data (d : Data) : Prop :=
  map_Forall (fun _ (sched : Schedule) =>
    map_Forall (fun _ (periods : Periods) =>
      map_Forall (fun _ v => slot_ok v) periods) sched) d.

Global Instance wf_data_dec d : Decision (wf_data d).
Proof. unfold wf_data. apply _. Defined.



(** *** The pattern analyzer *)

(** A day qualifies for Pattern B when every target period holds a class;
    which class is not asked. *)
Definition qualifies (d : Data) (teacher : pystr) (target_periods : list Z)
    (dy : pystr) : Prop :=
  Forall (fun p => is_Some (lookup_slot d teacher dy p)) target_periods.

Global Instance qualifies_dec d teacher target_periods dy :
  Decision (qualifies d teacher target_periods dy).
Proof. unfold qualifies. apply _. Defined.

Definition qualifying_days (d : Data) (teacher : pystr)
    (target_periods : list Z) : list pystr :=
  filter (qualifies d teacher target_periods) DAYS_ORDER.










(** A computation leaves the dictionary as it found it. *)
Definition readonly {A} (m : M A) : Prop := ∀ d, (m d).2 = d.

(** The dictionary the self-test analyzes. *)
Definition self_test_data : Data :=
  match detect_day_blocks build_sample_sheet_for_tests with
  | Ok day_blocks =>
      match parse_teacher_rows build_sample_sheet_for_tests day_blocks with
      | Ok data => data
      | Raise _ => ∅
      end
  | Raise _ => ∅
  end.

(** *** The day-block locator *)

(** The weekday a header cell names: its text, trimmed, when that is one of
    the five labels. *)
Definition header_day (sheet : Sheet) (col : Z) : option pystr :=
  match cell sheet 2 col with
  | VStr s =>
      if bool_decide (strip s ∈ DAYS_ORDER) then Some (strip s) else None
  | _ => None
  end.

(** What the scan of the header row keeps true of its two variables. *)
Definition inv_blocks (sheet : Sheet) (blocks : list DayBlock)
    (seen : gset pystr) : Prop :=
  (∀ s, s ∈ seen ↔ s ∈ day <$> blocks) ∧
  Forall (fun b => day b ∈ DAYS_ORDER
                   ∧ header_day sheet (start_col b) = Some (day b)) blocks ∧
  NoDup (day <$> blocks).

(** *** Texts *)

(** The longest prefix of [s] made of characters of a class. *)
Fixpoint leading (cls : char → bool) (s : pystr) : pystr :=
  match s with
  | c :: s' => if cls c then c :: leading cls s' else []
  | [] => []
  end.

(** A position holds no white space: there is no character, or it is not
    one. *)
Definition not_space_at (o : option N) : Prop :=
  match o with Some c => is_space c = false | None => True end.

(** *** The teacher-grid builder *)








(** Two rows for one teacher, with a class on Monday in the first period
    in the first row and in the second period in the second row. *)
Definition two_row_sheet : Sheet :=
  FakeWorksheet
    [[VStr (py "제목")];
     [VNone; VStr (py "월")];
     [];
     [VStr (py "김민수 (1)"); VStr (py "101")];
     [VStr (py "김민수(2)"); VNone; VStr (py "102")]].

Definition two_row_blocks : list DayBlock :=
  [{| day := py "월"; start_col := 2 |}].

(** A teacher whose Monday holds three different classes in the periods 1
    to 3. *)
Definition mixed_codes_data : Data :=
  {[ py "이영희" :=
       <[py "월" := <[1 := Some (py "101")]>
                      (<[2 := Some (py "202")]>
                         (<[3 := Some (py "303")]> empty_periods))]>
         empty_schedule ]}.

(** *** The findings of a teacher *)






(** *** The day-block locator: the columns it keeps *)

(** A block starts at the first column of the header row that names its
    day. *)
Definition first_header (sheet : Sheet) (b : DayBlock) : Prop :=
  header_day sheet (start_col b) = Some (day b) ∧
  ∀ col, 1 ≤ col < start_col b → header_day sheet col ≠ Some (day b).

(** What the scan of the columns 1 to [k] has found. *)
Definition inv_scan (sheet : Sheet) (k : Z) (blocks : list DayBlock)
    (seen : gset (list N)) : Prop :=
  (∀ s, s ∈ seen ↔ s ∈ day <$> blocks) ∧
  (∀ dy, dy ∈ day <$> blocks
         ↔ ∃ col, 1 ≤ col ≤ k ∧ header_day sheet col = Some dy) ∧
  Forall (fun b => 1 ≤ start_col b ≤ k ∧ first_header sheet b) blocks ∧
  StronglySorted (fun b1 b2 => start_col b1 < start_col b2) blocks.

(** *** The teacher-grid builder: what it reads *)

(** The sheet of the two rows with its three header rows blanked and its
    width forgotten. *)
Definition two_row_body : Sheet :=
  {| max_row := max_row two_row_sheet;
     max_column := None;
     cell := fun row column =>
       if row <? 4 then VNone else cell two_row_sheet row column |}.

(** A sheet with one data row, whose name cell holds an annotation and
    nothing else. *)
Definition annotation_row_sheet : Sheet :=
  FakeWorksheet [[]; [VNone; VStr (py "월")]; []; [VStr (py "(비고)")]].

(** *** Texts: where a run of digits stops *)

(** A text does not begin with a decimal digit. *)
Definition no_digit_ahead (s : pystr) : Prop :=
  match s with c :: _ => is_decimal c = false | [] => True end.

(** *** The report and the integer lists *)

(** The lines of a teacher in the report: the header, and an item for each
    message. *)
Definition report_block (messages : Messages) (teacher : pystr)
    : list pystr :=
  (py "=== " ++ teacher ++ py " 선생님 ===")
  :: ((fun msg => py "- " ++ msg) <$> default [] (messages !! teacher)).

(** The decimal digits of a numeral, as values, and the ASCII characters
    that write them. *)
Fixpoint uint_values (d : Decimal.uint) : list N :=
  match d with
  | Decimal.Nil => []
  | Decimal.D0 d => 0%N :: uint_values d
  | Decimal.D1 d => 1%N :: uint_values d
  | Decimal.D2 d => 2%N :: uint_values d
  | Decimal.D3 d => 3%N :: uint_values d
  | Decimal.D4 d => 4%N :: uint_values d
  | Decimal.D5 d => 5%N :: uint_values d
  | Decimal.D6 d => 6%N :: uint_values d
  | Decimal.D7 d => 7%N :: uint_values d
  | Decimal.D8 d => 8%N :: uint_values d
  | Decimal.D9 d => 9%N :: uint_values d
  end.

Definition nz_values (d : Decimal.uint) : list N :=
  match d with Decimal.Nil => [0%N] | _ => uint_values d end.

Definition digit_chars (vs : list N) : pystr := (fun v => 48 + v)%N <$> vs.

(** The value of a sequence of digits, from an accumulator. *)
Definition horner (acc : Z) (vs : list N) : Z :=
  fold_left (fun a v => 10 * a + Z.of_N v) vs acc.

(** A character of a text that is blank to [parse_int_list]: white space
    or a comma. *)
Definition blank_char (c : N) : Prop := is_space c = true ∨ c = 44%N.

(** ** Basic facts *)



(** ** Runs of the monad *)

Section monad_facts.







End monad_facts.

(** ** Pattern A: one window *)

Section window.





End window.

(** ** Pattern A: the two loops *)

Section pattern_a.

Variables (d : Data) (teacher : pystr) (cl : Z).

Hypothesis format_ok : ∀ dy p code,
  lookup_slot d teacher dy p = Some code →
  ∃ text, format_class_code code = Ok text.





End pattern_a.

(** ** One teacher, and the loop over the teachers *)

Section teachers.

Variables (cl : Z) (tp : list Z) (md : Z) (c7 : bool).




End teachers.

(** ** Reading never writes *)

Section readonly.

Lemma readonly_ret {A} (a : A) : readonly (ret a).
Proof. by intros d. Qed.

Lemma readonly_raise {A} (e : exn) : readonly (@raise A e).
Proof. by intros d. Qed.

Lemma readonly_lift {A} (r : pyresult A) : readonly (lift r).
Proof. by intros d. Qed.

Lemma readonly_read_slot (teacher dy : pystr) (p : Z) :
  readonly (read_slot teacher dy p).
Proof. by intros d. Qed.

Lemma readonly_items : readonly items.
Proof. by intros d. Qed.

Lemma readonly_bind {A B} (m : M A) (k : A → M B) :
  readonly m → (∀ a, readonly (k a)) → readonly (bind m k).
Proof.
  intros Hm Hk d. unfold bind. specialize (Hm d).
  destruct (m d) as [[a|e] d']; cbn in Hm; subst d'; [apply Hk|done].
Qed.

Lemma readonly_for_each {A B} (body : B → A → M B) (l : list A) (acc : B) :
  (∀ b a, readonly (body b a)) → readonly (for_each body l acc).
Proof.
  intros Hbody. revert acc. induction l as [|a l IH]; intros acc.
  - apply readonly_ret.
  - cbn [for_each]. by apply readonly_bind.
Qed.

Lemma readonly_map_each {A B} (f : A → M B) (l : list A) :
  (∀ a, readonly (f a)) → readonly (map_each f l).
Proof.
  intros Hf. induction l as [|a l IH]; [apply readonly_ret|].
  cbn [map_each]. apply readonly_bind; [done|]. intros b.
  apply readonly_bind; [done|]. intros bs. apply readonly_ret.
Qed.

Lemma readonly_all_each {A} (f : A → M bool) (l : list A) :
  (∀ a, readonly (f a)) → readonly (all_each f l).
Proof.
  intros Hf. induction l as [|a l IH]; [apply readonly_ret|].
  cbn [all_each]. apply readonly_bind; [done|].
  intros [|]; [done|apply readonly_ret].
Qed.

Create HintDb readonly.
#[local] Hint Resolve readonly_ret readonly_raise readonly_lift
  readonly_read_slot readonly_items : readonly.

(** Walks a computation: binds and loops by their lemmas, branches by
    cases, the primitives by the hints. *)
Ltac readonly_walk :=
  repeat first
    [ solve [auto with readonly]
    | progress intros
    | apply readonly_bind
    | apply readonly_for_each
    | apply readonly_map_each
    | apply readonly_all_each
    | match goal with
      | |- readonly (if ?b then _ else _) => destruct b
      | |- readonly (match ?x with _ => _ end) => destruct x
      end ].

Lemma readonly_pattern_a_window (teacher dy : pystr) (cl : Z)
    (st : StateA) (start : Z) :
  readonly (pattern_a_window teacher cl dy st start).
Proof. unfold pattern_a_window. readonly_walk. Qed.

Lemma readonly_analyze_teacher (teacher : pystr) (cl : Z) (tp : list Z)
    (md : Z) (c7 : bool) :
  readonly (analyze_teacher teacher cl tp md c7).
Proof.
  unfold analyze_teacher, pattern_a_day, pattern_b_day, pattern_c_day.
  readonly_walk; apply readonly_pattern_a_window.
Qed.

End readonly.

(** ** The message texts tell the patterns apart *)

Section messages.








End messages.

(** ** Class codes render without an error *)

Lemma int_go_decimal (s : pystr) (acc : Z) :
  Forall (fun c => is_decimal c = true) s → ∃ z, int_go acc s = Some z.
Proof.
  revert acc. induction s as [|c s IH]; intros acc Hs; [by eexists|].
  apply Forall_cons in Hs as [Hc Hs]. cbn [int_go].
  unfold is_decimal in Hc. destruct (decimal_value c); [|done].
  by apply IH.
Qed.


(** A text of digits that are not all decimal does not: [int] refuses the
    superscripts that [isdigit] accepts. *)
Example format_class_code_superscript :
  format_class_code (py "101") = Ok (py "1학년 1반(101)") ∧
  format_class_code (py "1²³") = Raise ValueError.
Proof. split; by vm_compute. Qed.


(** ** The pattern analyzer: what it computes *)



(** A store, for contrast: the builder's assignment does change the
    dictionary it runs on. *)
Example store_slot_writes :
  (store_slot (py "홍길동") (py "월") 1 None self_test_data).2 ≠ self_test_data.
Proof.
  intros H.
  apply (f_equal (fun d => lookup_slot d (py "홍길동") (py "월") 1)) in H.
  vm_compute in H. discriminate H.
Qed.

(** C8. The pattern analyzer never changes the teacher -> schedule
    dictionary it is given: whatever the configuration, and whether it
    returns or raises, the dictionary after the call is the dictionary
    before it, so every teacher's every day/period entry is the same. *)
Theorem analyze_patterns_readonly (cl : Z) (tp : list Z) (md : Z) (c7 : bool)
    (d : Data) :
  (analyze_patterns cl tp md c7 d).2 = d
  ∧ ∀ teacher dy p,
      lookup_slot (analyze_patterns cl tp md c7 d).2 teacher dy p
      = lookup_slot d teacher dy p.
Proof.
  assert (H : (analyze_patterns cl tp md c7 d).2 = d).
  { revert d. unfold analyze_patterns.
    apply readonly_bind; [apply readonly_items|]. intros its.
    apply readonly_for_each. intros [messages summary] [teacher sched].
    unfold analyze_step. cbn [fst].
    apply readonly_bind; [apply readonly_analyze_teacher|].
    intros [tm ts]. apply readonly_ret. }
  split; [done|]. intros teacher dy p. by rewrite H.
Qed.














(** Presence is enough: a Monday with three different classes in the
    periods 1 to 3 counts for these target periods. *)
Example mixed_codes_qualify :
  qualifying_days mixed_codes_data (py "이영희") [1; 2; 3] = [py "월"].
Proof. by vm_compute. Qed.



(** The sheet of the self-test, analyzed with its own parameters.  Its
    Pattern B fixture also fills the first and the fourth period of
    Wednesday and the seventh period of Monday, Wednesday and Friday, so no
    window of four periods holds one class, and every day has a seventh
    period. *)
Example self_test_summary :
  match (analyze_patterns 4 [1; 4; 5; 7] 3 true self_test_data).1 with
  | Ok (_, summary) => summary !! py "홍길동"
  | Raise _ => None
  end
  = Some {| patternA := [];
            patternB := {| triggered := true;
                           days := [py "월"; py "수"; py "금"] |};
            patternC := {| triggered := true; days := DAYS_ORDER |} |}.
Proof. by vm_compute. Qed.

(** ** The day-block locator *)

Section locator.

Variable sheet : Sheet.

Lemma detect_step_header (blocks : list DayBlock) (seen : gset pystr)
    (col : Z) :
  detect_step sheet (blocks, seen) col =
  match header_day sheet col with
  | Some s =>
      if bool_decide (s ∈ seen) then (blocks, seen)
      else (blocks ++ [{| day := s; start_col := col |}], {[s]} ∪ seen)
  | None => (blocks, seen)
  end.
Proof.
  unfold detect_step, header_day.
  destruct (cell sheet 2 col) as [|s|z|text]; try done.
  destruct (bool_decide (strip s ∈ DAYS_ORDER)); [|done].
  by destruct (bool_decide (strip s ∈ seen)).
Qed.

Lemma detect_fold (cols : list Z) (blocks : list DayBlock)
    (seen : gset pystr) :
  inv_blocks sheet blocks seen →
  ∃ blocks' seen',
    fold_left (detect_step sheet) cols (blocks, seen) = (blocks', seen') ∧
    inv_blocks sheet blocks' seen' ∧
    (blocks' = [] ↔
       blocks = [] ∧ ∀ col, col ∈ cols → header_day sheet col = None).
Proof.
  revert blocks seen. induction cols as [|col cols IH]; intros blocks seen Hinv.
  - exists blocks, seen. split; [done|]. split; [done|]. split; [|tauto].
    intros ->. split; [done|]. by intros col ?%elem_of_nil.
  - cbn [fold_left]. rewrite detect_step_header.
    destruct (header_day sheet col) as [s|] eqn:Hcol.
    + destruct Hinv as (Hseen & Hdays & Hnd).
      assert (Hs : s ∈ DAYS_ORDER).
      { unfold header_day in Hcol. destruct (cell sheet 2 col); try done.
        destruct (bool_decide_reflect (strip s0 ∈ DAYS_ORDER)); [|done].
        by injection Hcol as <-. }
      destruct (bool_decide_reflect (s ∈ seen)) as [Hin|Hout].
      * destruct (IH blocks seen) as (blocks' & seen' & Hrun & Hinv' & Hnil).
        { done. }
        exists blocks', seen'. split; [done|]. split; [done|].
        rewrite Hnil. split; intros [-> Hcols].
        -- apply Hseen in Hin. by apply elem_of_nil in Hin.
        -- specialize (Hcols col). rewrite Hcol in Hcols.
           by discriminate Hcols; left.
      * destruct (IH (blocks ++ [{| day := s; start_col := col |}])
                    ({[s]} ∪ seen))
          as (blocks' & seen' & Hrun & Hinv' & Hnil).
        { split; [|split].
          - intros s'. rewrite fmap_app, elem_of_app, elem_of_union, Hseen.
            cbn. rewrite elem_of_singleton, list_elem_of_singleton. tauto.
          - apply Forall_app. split; [done|]. apply Forall_singleton.
            by split.
          - rewrite fmap_app. apply NoDup_app. split; [done|].
            split; [|apply NoDup_singleton].
            intros s' Hs' Heq%list_elem_of_singleton. cbn in Heq. subst s'.
            by apply Hseen in Hs'. }
        exists blocks', seen'. split; [done|]. split; [done|].
        rewrite Hnil. split.
        -- intros [Hb _]. by destruct blocks.
        -- intros [_ Hcols]. specialize (Hcols col). rewrite Hcol in Hcols.
           by discriminate Hcols; left.
    + destruct (IH blocks seen Hinv) as (blocks' & seen' & Hrun & Hinv' & Hnil).
      exists blocks', seen'. split; [done|]. split; [done|].
      rewrite Hnil. split; intros [-> Hcols]; (split; [done|]).
      * intros c [->|Hc]%elem_of_cons; [done|by apply Hcols].
      * intros c Hc. apply Hcols. by right.
Qed.

Lemma detect_day_blocks_spec :
  let max_col := default 0 (max_column sheet) in
  (detect_day_blocks sheet = Raise (ParseError no_day_blocks) ∧
   ∀ col, 1 ≤ col ≤ max_col → header_day sheet col = None)
  ∨ (∃ blocks,
       detect_day_blocks sheet = Ok blocks ∧ blocks ≠ [] ∧
       Forall (fun b => day b ∈ DAYS_ORDER ∧
                        header_day sheet (start_col b) = Some (day b)) blocks ∧
       NoDup (day <$> blocks) ∧
       ∃ col, 1 ≤ col ≤ max_col ∧ is_Some (header_day sheet col)).
Proof.
  intros max_col. unfold detect_day_blocks. fold max_col.
  destruct (detect_fold (seqZ 1 max_col) [] ∅)
    as (blocks & seen & -> & (_ & Hdays & Hnd) & Hnil).
  { split; [|split]; [|constructor|constructor].
    intros s. cbn. rewrite elem_of_nil. set_solver. }
  destruct blocks as [|b blocks].
  - left. split; [done|]. intros col Hcol.
    apply Hnil; [done|]. apply elem_of_seqZ. lia.
  - right. exists (b :: blocks). repeat (split; [done|]).
    destruct (decide (Exists (fun col => is_Some (header_day sheet col))
                        (seqZ 1 max_col))) as [Hsome|Hnone].
    + apply Exists_exists in Hsome as (col & Hcol & Hlabel).
      exists col. split; [|done]. apply elem_of_seqZ in Hcol. lia.
    + assert (b :: blocks = []); [|done]. apply Hnil. split; [done|].
      intros col Hcol. destruct (header_day sheet col) eqn:E; [|done].
      destruct Hnone. apply Exists_exists. exists col. split; [done|].
      rewrite E. by eexists.
Qed.

End locator.

(** C5. If no cell of the header row, in the columns 1 to [max_column],
    holds a text that trimmed is a weekday label, the locator raises its
    layout error ([ParseError] with the text "no day block found") and
    returns no blocks; and if at least one cell does, it raises nothing and
    returns the blocks, of which there is at least one. *)
Theorem detect_day_blocks_layout_error (sheet : Sheet) :
  let max_col := default 0 (max_column sheet) in
  let labelled :=
    ∃ col, 1 ≤ col ≤ max_col ∧ is_Some (header_day sheet col) in
  (¬ labelled → detect_day_blocks sheet = Raise (ParseError no_day_blocks)) ∧
  (labelled →
     ∃ blocks, detect_day_blocks sheet = Ok blocks ∧ blocks ≠ [] ∧
       Forall (fun b => header_day sheet (start_col b) = Some (day b)) blocks).
Proof.
  intros max_col labelled.
  destruct (detect_day_blocks_spec sheet)
    as [[Hraise Hnone]|(blocks & Hok & Hne & Hdays & _ & Hcol)].
  - split; [done|]. intros (col & Hcol & Hlabel).
    fold max_col in Hnone. rewrite Hnone in Hlabel by done.
    by destruct Hlabel.
  - split; [intros Hno; by destruct Hno|]. intros _.
    exists blocks. split; [done|]. split; [done|].
    eapply Forall_impl; [exact Hdays|]. by intros b [_ ?].
Qed.

Example self_test_blocks :
  detect_day_blocks build_sample_sheet_for_tests
  = Ok [{| day := py "월"; start_col := 2 |};
        {| day := py "화"; start_col := 9 |};
        {| day := py "수"; start_col := 16 |};
        {| day := py "목"; start_col := 23 |};
        {| day := py "금"; start_col := 30 |}].
Proof. by vm_compute. Qed.

Example no_header_raises :
  detect_day_blocks (FakeWorksheet [[VStr (py "제목")]; [VNone; VInt 1]])
  = Raise (ParseError no_day_blocks).
Proof. by vm_compute. Qed.

(** ** The cell normalizer *)

Section regex_facts.


Lemma take_leading (cls : char → bool) (s : pystr) :
  take (length (leading cls s)) s = leading cls s.
Proof.
  induction s as [|c s IH]; cbn; [done|].
  destruct (cls c); cbn; [by rewrite IH|done].
Qed.

Lemma drop_leading_space (s : pystr) :
  drop (length (leading is_space s)) s = lstrip s.
Proof.
  induction s as [|c s IH]; cbn; [done|]. by destruct (is_space c).
Qed.

Lemma drop_in_leading (cls : char → bool) (s : pystr) (i : nat) :
  (i < length (leading cls s))%nat →
  ∃ c rest, drop i s = c :: rest ∧ cls c = true.
Proof.
  revert i. induction s as [|c s IH]; intros i Hi; cbn in Hi; [lia|].
  destruct (cls c) eqn:E; cbn in Hi; [|lia].
  destruct i as [|i]; [by exists c, s|]. cbn. apply IH. lia.
Qed.

(** A greedy repetition settles on the longest run when the rest of the
    pattern matches behind it ... *)
Lemma greedy_commit (cls : char → bool) (k : nat → pystr → option mresult)
    (pos : nat) (s : pystr) (r : mresult) :
  k (pos + length (leading cls s))%nat (drop (length (leading cls s)) s)
  = Some r →
  greedy cls k pos s = Some r.
Proof.
  revert pos. induction s as [|c s IH]; intros pos; cbn.
  - by rewrite Nat.add_0_r.
  - destruct (cls c); cbn.
    + intros H. rewrite (IH (S pos)); [done|].
      by replace (S pos + length (leading cls s))%nat
        with (pos + S (length (leading cls s)))%nat by lia.
    + by rewrite Nat.add_0_r.
Qed.

(** ... and fails when the rest matches behind no part of the run. *)
Lemma greedy_none (cls : char → bool) (k : nat → pystr → option mresult)
    (pos : nat) (s : pystr) :
  (∀ i, (i ≤ length (leading cls s))%nat → k (pos + i)%nat (drop i s) = None) →
  greedy cls k pos s = None.
Proof.
  revert pos. induction s as [|c s IH]; intros pos H; cbn.
  - specialize (H 0%nat). cbn in H. rewrite Nat.add_0_r in H. apply H. lia.
  - cbn in H. destruct (cls c); cbn in H.
    + rewrite IH.
      * specialize (H 0%nat). rewrite Nat.add_0_r in H. apply H. lia.
      * intros i Hi. specialize (H (S i)). cbn in H.
        replace (S pos + i)%nat with (pos + S i)%nat by lia. apply H. lia.
    + specialize (H 0%nat). rewrite Nat.add_0_r in H. apply H. lia.
Qed.

(** No white-space character is a decimal digit. *)
Lemma space_not_decimal (c : char) : is_space c = true → is_decimal c = false.
Proof.
  unfold is_space. intros H.
  assert (Hc : (c = 9 ∨ c = 10 ∨ c = 11 ∨ c = 12 ∨ c = 13 ∨ c = 28 ∨ c = 29
           ∨ c = 30 ∨ c = 31 ∨ c = 32 ∨ c = 133 ∨ c = 160 ∨ c = 5760
           ∨ c = 8192 ∨ c = 8193 ∨ c = 8194 ∨ c = 8195 ∨ c = 8196 ∨ c = 8197
           ∨ c = 8198 ∨ c = 8199 ∨ c = 8200 ∨ c = 8201 ∨ c = 8202
           ∨ c = 8232 ∨ c = 8233 ∨ c = 8239 ∨ c = 8287 ∨ c = 12288)%N).
  { repeat (apply orb_true_iff in H as [H|H]);
      repeat (apply andb_true_iff in H as [? ?]);
      rewrite ?N.leb_le, ?N.eqb_eq in *; lia. }
  repeat (destruct Hc as [->|Hc]; [reflexivity|]). by subst c.
Qed.

(** The pattern of the cell: what follows the white space. *)
Lemma cell_re_digits (pos : nat) (r : pystr) :
  match_here [AGroupOpen; APlus is_decimal; AGroupClose] 0 None pos r
  = match leading is_decimal r with
    | [] => None
    | _ => Some ((pos + length (leading is_decimal r))%nat,
                 Some (pos, (pos + length (leading is_decimal r))%nat))
    end.
Proof.
  cbn [match_here]. destruct r as [|c r]; cbn [leading]; [done|].
  destruct (is_decimal c); [|done].
  rewrite (greedy_commit _ _ _ _
             ((S pos + length (leading is_decimal r))%nat,
              Some (pos, (S pos + length (leading is_decimal r))%nat)));
    [|done].
  cbn [length]. by rewrite Nat.add_succ_r.
Qed.

Lemma cell_re_match (line : pystr) :
  match re_match cell_re line with
  | None => None
  | Some m => group1 line m
  end
  = match leading is_decimal (lstrip line) with
    | [] => None
    | digits => Some digits
    end.
Proof.
  change (re_match cell_re line)
    with (greedy is_space
            (match_here [AGroupOpen; APlus is_decimal; AGroupClose] 0 None)
            0 line).
  destruct (leading is_decimal (lstrip line)) as [|c0 digits] eqn:E.
  - rewrite greedy_none; [done|]. intros i Hi. rewrite cell_re_digits.
    apply Nat.lt_eq_cases in Hi as [Hi| ->].
    + destruct (drop_in_leading _ _ _ Hi) as (c & rest & -> & Hc).
      cbn [leading]. by rewrite (space_not_decimal c Hc).
    + by rewrite drop_leading_space, E.
  - set (n := length (leading is_space line)).
    rewrite (greedy_commit _ _ _ _
               ((n + length (c0 :: digits))%nat,
                Some (n, (n + length (c0 :: digits))%nat))).
    + unfold group1. cbn [snd]. fold n.
      replace (n + length (c0 :: digits) - n)%nat
        with (length (leading is_decimal (lstrip line))) by (rewrite E; lia).
      unfold n. by rewrite drop_leading_space, take_leading, E.
    + fold n. rewrite cell_re_digits. unfold n.
      by rewrite drop_leading_space, E.
Qed.

End regex_facts.

Section cell_text.



End cell_text.

Lemma parse_cell_to_class_text (s : pystr) :
  parse_cell_to_class (VStr s)
  = match leading is_decimal
            (lstrip (first_line (normalize_cell_text s))) with
    | [] => None
    | digits => Some digits
    end.
Proof. unfold parse_cell_to_class. apply cell_re_match. Qed.



(** ** The teacher-grid builder *)

Section builder_runs.

Variable sheet : Sheet.





End builder_runs.

Section builder_facts.

Variables (sheet : Sheet) (blocks : list DayBlock).

Hypothesis blocks_valid : Forall (fun b => day b ∈ DAYS_ORDER) blocks.











End builder_facts.

Section counting.




End counting.



(** The blocks the locator returns name weekdays. *)
Lemma detect_day_blocks_valid (sheet : Sheet) (blocks : list DayBlock) :
  detect_day_blocks sheet = Ok blocks →
  Forall (fun b => day b ∈ DAYS_ORDER) blocks ∧ NoDup (day <$> blocks).
Proof.
  intros Hok.
  destruct (detect_day_blocks_spec sheet)
    as [[Hraise _]|(blocks' & Hok' & _ & Hdays & Hnd & _)]; [congruence|].
  rewrite Hok in Hok'. injection Hok' as <-. split; [|done].
  eapply Forall_impl; [exact Hdays|]. by intros b [? _].
Qed.



(** ** Teacher names: the annotation pattern *)

Section annotation.

Lemma leading_app_stop (cls : char → bool) (run rest : pystr) :
  Forall (fun c => cls c = true) run →
  match rest with c :: _ => cls c = false | [] => True end →
  leading cls (run ++ rest) = run.
Proof.
  intros Hrun Hrest. induction Hrun as [|c run Hc _ IH]; cbn.
  - destruct rest as [|c rest]; [done|]. cbn. by rewrite Hrest.
  - by rewrite Hc, IH.
Qed.

Lemma leading_short (cls : char → bool) (stem rest : pystr) (c : N) :
  last stem = Some c → cls c = false →
  (length (leading cls (stem ++ rest)) < length stem)%nat.
Proof.
  revert c. induction stem as [|a stem IH]; intros c Hlast Hc; [done|].
  cbn. destruct (cls a) eqn:Ha; cbn; [|lia].
  destruct stem as [|b stem].
  - cbn in Hlast. injection Hlast as ->. congruence.
  - rewrite last_cons_cons in Hlast. specialize (IH c Hlast Hc). lia.
Qed.

(** The annotation and the white space before it match, up to the end of
    the text. *)
Lemma annotation_match (pos : nat) (ws note : pystr) :
  Forall (fun c => is_space c = true) ws → RPAREN ∉ note →
  match_here annotation_re 0 None pos (ws ++ LPAREN :: note ++ [RPAREN])
  = Some ((pos + length (ws ++ LPAREN :: note ++ [RPAREN]))%nat, None).
Proof.
  intros Hws Hnote.
  change (match_here annotation_re 0 None pos ?s)
    with (greedy is_space
            (match_here [AChar (N.eqb LPAREN);
                         AStar (fun c => negb (c =? RPAREN)%N);
                         AChar (N.eqb RPAREN); AStar is_space; AEnd] 0 None)
            pos s).
  apply greedy_commit. rewrite leading_app_stop; [|done|done].
  rewrite drop_app_length. cbn [match_here N.eqb LPAREN Pos.eqb].
  apply greedy_commit. rewrite leading_app_stop; [| |done].
  - rewrite drop_app_length. cbn.
    rewrite !length_app. cbn. rewrite length_app. cbn.
    do 2 f_equal. lia.
  - apply Forall_forall. intros c Hc. apply negb_true_iff, N.eqb_neq.
    by intros ->.
Qed.

(** Nothing matches from inside the name proper. *)
Lemma annotation_no_match (pos : nat) (stem rest : pystr) (c : N) :
  LPAREN ∉ stem → last stem = Some c → is_space c = false →
  match_here annotation_re 0 None pos (stem ++ rest) = None.
Proof.
  intros Hparen Hlast Hc.
  change (match_here annotation_re 0 None pos ?s)
    with (greedy is_space
            (match_here [AChar (N.eqb LPAREN);
                         AStar (fun c => negb (c =? RPAREN)%N);
                         AChar (N.eqb RPAREN); AStar is_space; AEnd] 0 None)
            pos s).
  apply greedy_none. intros i Hi.
  pose proof (leading_short is_space stem rest c Hlast Hc) as Hshort.
  rewrite drop_app_le by lia.
  destruct (drop i stem) as [|a tl] eqn:E.
  { apply (f_equal length) in E. rewrite length_drop in E. cbn in E. lia. }
  assert (Ha : a ∈ stem).
  { apply (list_elem_of_lookup_2 _ i). rewrite <- (Nat.add_0_r i).
    by rewrite <- lookup_drop, E. }
  cbn [app match_here]. replace (LPAREN =? a)%N with false; [done|].
  symmetry. apply N.eqb_neq. by intros <-.
Qed.

Lemma sub_go_skip (re : regex) (pos : nat) (s : pystr) :
  sub_go re (length s) pos s = [].
Proof.
  revert pos. induction s as [|c s IH]; intros pos; [done|]. cbn. apply IH.
Qed.

Lemma sub_go_annotation (pos : nat) (stem ws note : pystr) :
  LPAREN ∉ stem → not_space_at (last stem) →
  Forall (fun c => is_space c = true) ws → RPAREN ∉ note →
  sub_go annotation_re 0 pos (stem ++ ws ++ LPAREN :: note ++ [RPAREN]) = stem.
Proof.
  intros Hparen Hlast Hws Hnote. revert pos Hparen Hlast.
  induction stem as [|a stem IH]; intros pos Hparen Hlast.
  - cbn [app].
    pose proof (annotation_match pos ws note Hws Hnote) as Hm.
    destruct (ws ++ LPAREN :: note ++ [RPAREN]) as [|c tl] eqn:E.
    { by destruct ws. }
    cbn [sub_go]. rewrite Hm. cbn [length].
    replace (pos <? pos + S (length tl))%nat with true
      by (symmetry; apply Nat.ltb_lt; lia).
    replace (pos + S (length tl) - pos - 1)%nat with (length tl) by lia.
    apply sub_go_skip.
  - destruct (last (a :: stem)) as [c|] eqn:El; [|by apply last_None in El].
    cbn in Hlast.
    pose proof (annotation_no_match pos (a :: stem)
                  (ws ++ LPAREN :: note ++ [RPAREN]) c Hparen El Hlast) as Hm.
    cbn [app] in *. cbn [sub_go]. rewrite Hm. f_equal. apply IH.
    + by apply not_elem_of_cons in Hparen as [_ ?].
    + destruct stem as [|b stem]; [done|].
      rewrite last_cons_cons in El. by rewrite El.
Qed.

Lemma lstrip_keep (s : pystr) : not_space_at (head s) → lstrip s = s.
Proof. destruct s as [|c s]; [done|]. cbn. by intros ->. Qed.

Lemma lstrip_spaces (ws s : pystr) :
  Forall (fun c => is_space c = true) ws → lstrip (ws ++ s) = lstrip s.
Proof. induction 1 as [|c ws Hc _ IH]; cbn; [done|]. by rewrite Hc. Qed.

Lemma rstrip_snoc (s : pystr) (c : N) :
  rstrip (s ++ [c]) = if is_space c then rstrip s else s ++ [c].
Proof.
  unfold rstrip. rewrite reverse_snoc. cbn [lstrip].
  destruct (is_space c); [done|]. by rewrite reverse_cons, reverse_involutive.
Qed.

Lemma rstrip_keep (s : pystr) : not_space_at (last s) → rstrip s = s.
Proof.
  destruct s as [|c s _] using rev_ind; [done|].
  rewrite last_snoc, rstrip_snoc. cbn. by intros ->.
Qed.

Lemma rstrip_spaces (s ws : pystr) :
  Forall (fun c => is_space c = true) ws → rstrip (s ++ ws) = rstrip s.
Proof.
  induction ws as [|c ws IH] using rev_ind; intros Hws.
  - by rewrite app_nil_r.
  - apply Forall_app in Hws as [Hws Hc]. rewrite Forall_singleton in Hc.
    rewrite app_assoc, rstrip_snoc, Hc. by apply IH.
Qed.

Lemma rstrip_annotation (s pad : pystr) :
  Forall (fun c => is_space c = true) pad →
  rstrip (s ++ [RPAREN] ++ pad) = s ++ [RPAREN].
Proof.
  intros Hpad. rewrite app_assoc, rstrip_spaces by done.
  by rewrite rstrip_snoc.
Qed.

(** Trimming, removing the annotation, trimming: a name followed by white
    space and one parenthesized annotation, with white space around the
    whole, comes out as the name. *)
Lemma normalize_annotated (pad1 stem ws note pad2 : pystr) :
  Forall (fun c => is_space c = true) pad1 →
  Forall (fun c => is_space c = true) pad2 →
  Forall (fun c => is_space c = true) ws →
  not_space_at (head stem) → not_space_at (last stem) →
  LPAREN ∉ stem → RPAREN ∉ note →
  normalize_teacher_name
    (pad1 ++ stem ++ ws ++ LPAREN :: note ++ [RPAREN] ++ pad2) = stem.
Proof.
  intros Hp1 Hp2 Hws Hhead Hlast Hparen Hnote. unfold normalize_teacher_name.
  assert (Hstrip :
    strip (pad1 ++ stem ++ ws ++ LPAREN :: note ++ [RPAREN] ++ pad2)
    = stem ++ (match stem with [] => [] | _ => ws end)
        ++ LPAREN :: note ++ [RPAREN]).
  { unfold strip. rewrite lstrip_spaces by done.
    destruct stem as [|a stem].
    - cbn [app]. rewrite lstrip_spaces by done.
      rewrite lstrip_keep by done.
      apply (rstrip_annotation (LPAREN :: note)); done.
    - rewrite lstrip_keep by done.
      replace ((a :: stem) ++ ws ++ LPAREN :: note ++ [RPAREN] ++ pad2)
        with (((a :: stem) ++ ws ++ LPAREN :: note) ++ [RPAREN] ++ pad2)
        by (by rewrite <- !app_assoc).
      rewrite rstrip_annotation by done. by rewrite <- !app_assoc. }
  rewrite Hstrip. unfold re_sub_delete.
  rewrite sub_go_annotation; try done.
  - unfold strip. by rewrite lstrip_keep, rstrip_keep.
  - by destruct stem.
Qed.

End annotation.

Section plain_names.










End plain_names.

Section row_order.



End row_order.

(** The second row is written over the first, empty cells included. *)
Example two_row_sheet_result :
  ∃ data,
    parse_teacher_rows two_row_sheet two_row_blocks = Ok data ∧
    dom data = {[ py "김민수" ]} ∧
    lookup_slot data (py "김민수") (py "월") 1 = None ∧
    lookup_slot data (py "김민수") (py "월") 2 = Some (py "102").
Proof. eexists. split; [by vm_compute|]. by vm_compute. Qed.



(** ** The pattern analyzer: the messages and the summary side by side *)
















(** ** Pattern A at and below length zero *)




(** ** Pattern A: the order of the matches *)

Section match_order.







Variables (teacher : pystr) (cl : Z).





End match_order.



(** ** The teachers are analyzed one by one *)

Section agree.

Variables (d1 d2 : Data).








Variable teacher : pystr.

Hypothesis same_schedule : d1 !! teacher = d2 !! teacher.




End agree.



(** ** Pattern B and Pattern C under a weaker configuration *)





(** ** The day-block locator: first columns, in order *)

Section scan.

Variable sheet : Sheet.

Lemma inv_scan_step (k : Z) (blocks : list DayBlock) (seen : gset pystr) :
  0 ≤ k → inv_scan sheet k blocks seen →
  ∃ blocks' seen',
    detect_step sheet (blocks, seen) (k + 1) = (blocks', seen') ∧
    inv_scan sheet (k + 1) blocks' seen'.
Proof.
  intros Hk (Hseen & Hdays & Hfirst & Hsorted).
  rewrite detect_step_header.
  assert (Hwiden : Forall (fun b => 1 ≤ start_col b ≤ k + 1
                                    ∧ first_header sheet b) blocks).
  { eapply Forall_impl; [exact Hfirst|]. intros b [? ?]. split; [lia|done]. }
  destruct (header_day sheet (k + 1)) as [s|] eqn:Hcol.
  - destruct (bool_decide_reflect (s ∈ seen)) as [Hin|Hout].
    + exists blocks, seen. split; [done|].
      split; [done|]. split; [|by split]. intros dy. rewrite Hdays. split.
      * intros (col & Hc & Hh). exists col. split; [lia|done].
      * intros (col & Hc & Hh).
        destruct (decide (col = k + 1)) as [->|Hne].
        -- rewrite Hcol in Hh. injection Hh as <-.
           by apply Hdays, Hseen.
        -- exists col. split; [lia|done].
    + exists (blocks ++ [{| day := s; start_col := k + 1 |}]), ({[s]} ∪ seen).
      split; [done|]. split; [|split; [|split]].
      * intros s'. rewrite fmap_app, elem_of_app, elem_of_union, Hseen.
        cbn. rewrite elem_of_singleton, list_elem_of_singleton. tauto.
      * intros dy. rewrite fmap_app, elem_of_app, Hdays. cbn.
        rewrite list_elem_of_singleton. split.
        -- intros [(col & Hc & Hh)| ->].
           ++ exists col. split; [lia|done].
           ++ exists (k + 1). split; [lia|done].
        -- intros (col & Hc & Hh).
           destruct (decide (col = k + 1)) as [->|Hne].
           ++ right. rewrite Hcol in Hh. by injection Hh.
           ++ left. exists col. split; [lia|done].
      * apply Forall_app. split; [done|]. apply Forall_singleton. cbn.
        split; [lia|]. split; [done|]. cbn. intros col Hc Hh.
        apply Hout, Hseen, Hdays. exists col. split; [lia|done].
      * apply StronglySorted_app_2; [|done|repeat constructor].
        intros b1 b2 Hb1 Hb2%list_elem_of_singleton. subst b2. cbn.
        rewrite Forall_forall in Hfirst. destruct (Hfirst b1 Hb1). lia.
  - exists blocks, seen. split; [done|].
    split; [done|]. split; [|by split]. intros dy. rewrite Hdays. split.
    + intros (col & Hc & Hh). exists col. split; [lia|done].
    + intros (col & Hc & Hh).
      destruct (decide (col = k + 1)) as [->|Hne]; [congruence|].
      exists col. split; [lia|done].
Qed.

Lemma inv_scan_fold (n : nat) :
  ∃ blocks seen,
    fold_left (detect_step sheet) (seqZ 1 (Z.of_nat n)) ([], ∅)
    = (blocks, seen) ∧
    inv_scan sheet (Z.of_nat n) blocks seen.
Proof.
  induction n as [|n (blocks & seen & Hrun & Hinv)].
  - exists [], ∅. split; [done|]. split; [|split; [|split]].
    + intros s. cbn. rewrite elem_of_nil. set_solver.
    + intros dy. cbn. rewrite elem_of_nil. split; [done|].
      intros (col & ? & _). lia.
    + constructor.
    + constructor.
  - destruct (inv_scan_step (Z.of_nat n) blocks seen)
      as (blocks' & seen' & Hstep & Hinv'); [lia|done|].
    exists blocks', seen'. split.
    + rewrite seqZ_S, fold_left_app, Hrun. cbn [fold_left].
      by replace (1 + Z.of_nat n) with (Z.of_nat n + 1) by lia.
    + by replace (Z.of_nat (S n)) with (Z.of_nat n + 1) by lia.
Qed.

End scan.

Lemma days_length (l : list pystr) :
  NoDup l → Forall (fun dy => dy ∈ DAYS_ORDER) l → (length l ≤ 5)%nat.
Proof.
  intros Hnd Hall.
  apply (submseteq_length l DAYS_ORDER), NoDup_submseteq; [done|].
  by apply Forall_forall.
Qed.

(** X8. The blocks the locator returns are the first occurrences of the
    weekdays in the header row, from left to right: a weekday has a block
    exactly when some cell of row 2 in the columns 1 to [max_column] names
    it; the block starts at the first such column (a later cell with the
    same label is passed over); the blocks are in increasing order of their
    columns; and no weekday has two, so there are at most five. *)
Theorem detect_day_blocks_first_columns (sheet : Sheet)
    (blocks : list DayBlock) :
  detect_day_blocks sheet = Ok blocks →
  let max_col := default 0 (max_column sheet) in
  (∀ dy, dy ∈ day <$> blocks
         ↔ ∃ col, 1 ≤ col ≤ max_col ∧ header_day sheet col = Some dy) ∧
  Forall (fun b => 1 ≤ start_col b ≤ max_col ∧ first_header sheet b) blocks ∧
  StronglySorted (fun b1 b2 => start_col b1 < start_col b2) blocks ∧
  NoDup (day <$> blocks) ∧
  (length blocks ≤ 5)%nat.
Proof.
  intros Hok max_col.
  destruct (detect_day_blocks_valid sheet blocks Hok) as [Hvalid Hnd].
  unfold detect_day_blocks in Hok. fold max_col in Hok.
  destruct (inv_scan_fold sheet (Z.to_nat max_col))
    as (blocks' & seen & Hrun & Hseen & Hdays & Hfirst & Hsorted).
  assert (Hseq : seqZ 1 (Z.of_nat (Z.to_nat max_col)) = seqZ 1 max_col).
  { unfold seqZ. by rewrite Nat2Z.id. }
  rewrite Hseq in Hrun. rewrite Hrun in Hok.
  assert (blocks' = blocks) as -> by (destruct blocks'; congruence).
  split; [|split; [|split; [|split]]].
  - intros dy. rewrite Hdays. split; intros (col & Hc & Hh); exists col;
      (split; [lia|done]).
  - eapply Forall_impl; [exact Hfirst|]. intros b [? ?]. split; [lia|done].
  - done.
  - done.
  - rewrite <- (length_fmap day). apply days_length; [done|].
    by rewrite Forall_fmap.
Qed.

Lemma detect_day_blocks_first_columns_witness :
  StronglySorted (fun b1 b2 => start_col b1 < start_col b2)
    [{| day := py "월"; start_col := 2 |}; {| day := py "화"; start_col := 9 |};
     {| day := py "수"; start_col := 16 |};
     {| day := py "목"; start_col := 23 |};
     {| day := py "금"; start_col := 30 |}].
Proof.
  apply (detect_day_blocks_first_columns build_sample_sheet_for_tests).
  by vm_compute.
Defined.

(** ** The teacher-grid builder: what it reads, and when it fails *)

Section builder_reads.

Lemma for_each_ext {A B : Type} (f g : B → A → M B) (l : list A) (acc : B)
    (d : Data) :
  (∀ a acc d, a ∈ l → f acc a d = g acc a d) →
  for_each f l acc d = for_each g l acc d.
Proof.
  revert acc d. induction l as [|a l IH]; intros acc d Hfg; [done|].
  cbn [for_each]. unfold bind. rewrite (Hfg a acc d) by left.
  destruct (g acc a d) as [[r|e] d']; [|done].
  apply IH. intros a' acc' d'' Ha'. apply Hfg. by right.
Qed.

End builder_reads.

(** X9. The builder reads the name column and the seven columns of each
    block in the rows 4 to [max_row], and nothing else: two sheets with the
    same [max_row] that agree on these cells give the same result, whatever
    their header rows, their other columns and their [max_column] hold. *)
Theorem parse_teacher_rows_reads_blocks_only (sheet1 sheet2 : Sheet)
    (blocks : list DayBlock) :
  default 0 (max_row sheet1) = default 0 (max_row sheet2) →
  (∀ row, 4 ≤ row ≤ default 0 (max_row sheet1) →
     cell sheet1 row 1 = cell sheet2 row 1 ∧
     ∀ b p, b ∈ blocks → 1 ≤ p ≤ 7 →
       cell sheet1 row (start_col b + p - 1)
       = cell sheet2 row (start_col b + p - 1)) →
  parse_teacher_rows sheet1 blocks = parse_teacher_rows sheet2 blocks.
Proof.
  intros Hrows Hcells. unfold parse_teacher_rows. rewrite <- Hrows.
  rewrite (for_each_ext (parse_row sheet1 blocks) (parse_row sheet2 blocks));
    [done|].
  intros row acc d Hrow%elem_of_seqZ.
  destruct (Hcells row) as [Hname Hblock]; [lia|].
  assert (Hrt : row_teacher sheet1 row = row_teacher sheet2 row).
  { unfold row_teacher. by rewrite Hname. }
  unfold parse_row. rewrite Hrt.
  destruct (row_teacher sheet2 row) as [name|]; [|done].
  unfold bind, contains, store_teacher, ret.
  destruct (bool_decide _).
  all: apply for_each_ext; intros b acc' d' Hb.
  all: apply for_each_ext; intros p acc'' d'' Hp%elem_of_seqZ.
  all: rewrite (Hblock b p Hb); [done|lia].
Qed.

Lemma parse_teacher_rows_reads_blocks_only_witness :
  parse_teacher_rows two_row_sheet two_row_blocks
  = parse_teacher_rows two_row_body two_row_blocks.
Proof.
  apply parse_teacher_rows_reads_blocks_only; [reflexivity|].
  intros row Hrow. cbn [cell two_row_body].
  destruct (Z.ltb_spec row 4) as [Hlt|_]; [lia|]. split; [reflexivity|].
  intros b p _ _. reflexivity.
Defined.

Section builder_errors.

Variables (sheet : Sheet) (blocks : list DayBlock).






End builder_errors.










(** X13. A row whose name cell holds nothing but a parenthesized
    annotation, with or without white space around it, has no teacher name
    left after the normalization and is skipped like an empty row. *)
Theorem row_teacher_annotation_only (sheet : Sheet) (row : Z)
    (pad1 note pad2 : pystr) :
  Forall (fun c => is_space c = true) pad1 →
  Forall (fun c => is_space c = true) pad2 →
  RPAREN ∉ note →
  cell sheet row 1 = VStr (pad1 ++ LPAREN :: note ++ [RPAREN] ++ pad2) →
  normalize_teacher_name (pad1 ++ LPAREN :: note ++ [RPAREN] ++ pad2) = [] ∧
  row_teacher sheet row = None ∧
  ∀ blocks d, parse_row sheet blocks tt row d = (Ok tt, d).
Proof.
  intros Hp1 Hp2 Hnote Hcell.
  assert (Hnorm : normalize_teacher_name
                    (pad1 ++ LPAREN :: note ++ [RPAREN] ++ pad2) = []).
  { apply (normalize_annotated pad1 [] [] note pad2); try done.
    apply not_elem_of_nil. }
  assert (Hrow : row_teacher sheet row = None).
  { unfold row_teacher. rewrite Hcell. cbn [py_str]. rewrite Hnorm.
    by destruct (bool_decide (strip _ = [])). }
  split; [done|]. split; [done|]. intros blocks d.
  unfold parse_row. by rewrite Hrow.
Qed.

Lemma row_teacher_annotation_only_witness :
  row_teacher annotation_row_sheet 4 = None.
Proof.
  apply (row_teacher_annotation_only annotation_row_sheet 4 []
           (py "비고") []).
  - constructor.
  - constructor.
  - apply (bool_decide_unpack _). by vm_compute.
  - by vm_compute.
Defined.



(** ** Class codes as texts *)

Section rendering.

Lemma int_go_Some (s : pystr) (acc z : Z) :
  int_go acc s = Some z → Forall (fun c => is_decimal c = true) s.
Proof.
  revert acc. induction s as [|c s IH]; intros acc; [constructor|].
  cbn [int_go]. unfold is_decimal at 1.
  destruct (decimal_value c) eqn:E; [|done].
  intros H. constructor; [by rewrite E|by eapply IH].
Qed.

Lemma paren_not_digit : is_digit LPAREN = false.
Proof. by vm_compute. Qed.

End rendering.

(** X15. The one failure of the rendering of a class code: it raises
    [ValueError], and nothing else, exactly for a text of three characters
    that [isdigit] accepts and of which the second or the third is not a
    decimal digit (a superscript or a circled digit, which [int] refuses);
    for every other text it returns. *)
Theorem format_class_code_value_error (code : pystr) (e : exn) :
  format_class_code code = Raise e
  ↔ e = ValueError ∧ length code = 3%nat ∧ isdigit code = true ∧
    Exists (fun c => is_decimal c = false) (drop 1 code).
Proof.
  unfold format_class_code.
  destruct (Nat.eqb_spec (length code) 3) as [Hlen|Hlen]; cbn [andb].
  2: { split; [done|]. by intros (_ & ? & _). }
  destruct (isdigit code) eqn:Hdig.
  2: { split; [done|]. by intros (_ & _ & ? & _). }
  destruct code as [|a [|b [|c [|? ?]]]]; try done. cbn [drop int_of_digits].
  destruct (int_go 0 [b; c]) as [z|] eqn:E.
  - split; [done|]. intros (_ & _ & _ & Hex).
    apply int_go_Some in E. apply Exists_exists in Hex as (x & Hx & Hnd).
    rewrite Forall_forall in E. rewrite (E x Hx) in Hnd. done.
  - split.
    + intros [= <-]. repeat (split; [done|]).
      destruct (decide (Exists (fun c => is_decimal c = false) [b; c]))
        as [|Hno]; [done|].
      destruct (int_go_decimal [b; c] 0) as [z Hz]; [|congruence].
      apply Forall_forall. intros x Hx.
      destruct (is_decimal x) eqn:Ex; [done|].
      destruct Hno. apply Exists_exists. by exists x.
    + by intros (-> & _).
Qed.

(** X16. The rendering tells the class codes apart: two texts that render
    to the same text are the same text, so the code can be read off a
    message. *)
Theorem format_class_code_inj (code1 code2 text : pystr) :
  format_class_code code1 = Ok text → format_class_code code2 = Ok text →
  code1 = code2.
Proof.
  assert (Hgraded : ∀ c1 c2 n1 n2 t,
    length c1 = 3%nat → length c2 = 3%nat →
    take 1 c1 ++ py "학년 " ++ str_of_Z n1 ++ py "반(" ++ c1 ++ py ")" = t →
    take 1 c2 ++ py "학년 " ++ str_of_Z n2 ++ py "반(" ++ c2 ++ py ")" = t →
    c1 = c2).
  { intros c1 c2 n1 n2 t H1 H2 E1 E2. rewrite <- E2 in E1.
    rewrite !app_assoc in E1. apply app_inv_tail in E1.
    apply app_inj_2 in E1 as [_ E1]; [done|congruence]. }
  assert (Hmixed : ∀ c1 c2 n1 t,
    length c1 = 3%nat → isdigit c1 = true →
    take 1 c1 ++ py "학년 " ++ str_of_Z n1 ++ py "반(" ++ c1 ++ py ")" = t →
    py "(" ++ c2 ++ py ")" = t → False).
  { intros c1 c2 n1 t Hlen Hdig E1 E2. rewrite <- E2 in E1.
    destruct c1 as [|a c1]; [done|]. change (py "(") with [LPAREN] in E1.
    cbn [take app] in E1. injection E1 as -> _.
    cbn [isdigit forallb] in Hdig. by rewrite paren_not_digit in Hdig. }
  unfold format_class_code.
  destruct ((length code1 =? 3)%nat && isdigit code1) eqn:G1;
    destruct ((length code2 =? 3)%nat && isdigit code2) eqn:G2.
  all: try (apply andb_true_iff in G1 as [Hl1%Nat.eqb_eq Hd1]).
  all: try (apply andb_true_iff in G2 as [Hl2%Nat.eqb_eq Hd2]).
  - destruct (int_of_digits (drop 1 code1)) as [n1|]; [|done].
    destruct (int_of_digits (drop 1 code2)) as [n2|]; [|done].
    intros [= E1] [= E2]. by apply (Hgraded code1 code2 n1 n2 text).
  - destruct (int_of_digits (drop 1 code1)) as [n1|]; [|done].
    intros [= E1] [= E2]. by destruct (Hmixed code1 code2 n1 text).
  - destruct (int_of_digits (drop 1 code2)) as [n2|]; [|done].
    intros [= E1] [= E2]. by destruct (Hmixed code2 code1 n2 text).
  - intros [= E1] [= E2]. rewrite <- E2 in E1. injection E1 as E1.
    by apply app_inv_tail in E1.
Qed.

Lemma format_class_code_inj_witness : py "101" = py "101".
Proof.
  apply (format_class_code_inj (py "101") (py "101") (py "1학년 1반(101)"));
    by vm_compute.
Defined.

(** ** The cell normalizer: a code and what follows it *)

Section leading_code.

Lemma decimal_not_space (c : N) : is_decimal c = true → is_space c = false.
Proof.
  intros Hd. destruct (is_space c) eqn:E; [|done].
  apply space_not_decimal in E. congruence.
Qed.

Lemma startswith_head (old s : pystr) (a c : N) :
  a ≠ c → startswith (a :: old) (c :: s) = false.
Proof. intros H. cbn. by rewrite (proj2 (N.eqb_neq a c) H). Qed.

(** A replacement passes over a run of characters that do not begin the
    text it looks for. *)
Lemma replace_run (a : N) (old new run rest : pystr) :
  a ∉ run →
  replace (a :: old) new (run ++ rest) = run ++ replace (a :: old) new rest.
Proof.
  unfold replace. induction run as [|c run IH]; intros Hrun; [done|].
  apply not_elem_of_cons in Hrun as [Hc Hrun].
  cbn [app replace_go]. rewrite startswith_head by done.
  by rewrite IH.
Qed.

Lemma replace_no_digit_ahead (a : N) (old s : pystr) :
  no_digit_ahead s → no_digit_ahead (replace (a :: old) [LF] s).
Proof.
  unfold replace. destruct s as [|c s]; [done|]. cbn [replace_go].
  by destruct (startswith (a :: old) (c :: s)).
Qed.

Lemma first_line_run (run rest : pystr) :
  LF ∉ run → first_line (run ++ rest) = run ++ first_line rest.
Proof.
  induction run as [|c run IH]; intros Hrun; [done|].
  apply not_elem_of_cons in Hrun as [Hc Hrun]. cbn [app first_line].
  rewrite (proj2 (N.eqb_neq c LF)) by done. by rewrite IH.
Qed.

Lemma first_line_no_digit_ahead (s : pystr) :
  no_digit_ahead s → no_digit_ahead (first_line s).
Proof.
  destruct s as [|c s]; [done|]. cbn [first_line].
  by destruct (c =? LF)%N.
Qed.

Lemma decimal_run_avoids (code : pystr) (a : N) :
  Forall (fun c => is_decimal c = true) code → is_decimal a = false →
  a ∉ code.
Proof.
  intros Hcode Ha Hin. rewrite Forall_forall in Hcode.
  rewrite (Hcode a Hin) in Ha. done.
Qed.

End leading_code.

(** X17. A cell that begins with a class code gives that code: when the
    text is a non-empty run of decimal digits followed by nothing or by
    anything that does not begin with a digit (a line break and a subject,
    as in "101\n국어", or letters on the same line), the normalizer returns
    the run, all of it and nothing more. *)
Theorem parse_cell_to_class_leading_code (code rest : pystr) :
  class_code code → no_digit_ahead rest →
  parse_cell_to_class (VStr (code ++ rest)) = Some code.
Proof.
  intros [Hne Hcode] Hrest. rewrite parse_cell_to_class_text.
  unfold normalize_cell_text.
  change (py "_x000D_" ++ [LF]) with (95%N :: py "x000D_" ++ [LF]).
  rewrite !replace_run
    by (apply decimal_run_avoids; [done|by vm_compute]).
  rewrite first_line_run
    by (apply decimal_run_avoids; [done|by vm_compute]).
  set (tail := first_line _).
  assert (Htail : no_digit_ahead tail).
  { unfold tail.
    by apply first_line_no_digit_ahead, replace_no_digit_ahead,
      replace_no_digit_ahead, replace_no_digit_ahead. }
  rewrite lstrip_keep.
  - rewrite leading_app_stop by done. by destruct code.
  - destruct code as [|c code]; [done|]. cbn.
    apply Forall_cons in Hcode as [Hc _]. by apply decimal_not_space.
Qed.

Lemma parse_cell_to_class_leading_code_witness :
  parse_cell_to_class (VStr (py "101" ++ LF :: py "국어")) = Some (py "101").
Proof.
  apply (parse_cell_to_class_leading_code (py "101") (LF :: py "국어")).
  - apply (bool_decide_unpack _). by vm_compute.
  - by vm_compute.
Defined.

(** ** The in-memory worksheet *)

Section fake_worksheet.

Lemma foldr_max_ge (l : list nat) (n : nat) :
  n ∈ l → (n ≤ foldr Nat.max 0%nat l)%nat.
Proof.
  induction l as [|m l IH]; [by intros ?%elem_of_nil|].
  intros [->|Hn]%elem_of_cons; cbn [foldr]; [lia|]. specialize (IH Hn). lia.
Qed.

End fake_worksheet.

(** X18. The in-memory worksheet never fails on a cell.  For a row and a
    column from 1 on, the cell is the entry of the nested list at that
    place, and [None] when the list has no such entry, which is the case
    throughout beyond [max_row] and beyond [max_column]; and row 0 reads the
    last row, by the negative subscript it becomes. *)
Theorem FakeWorksheet_cell_bounds (data : list (list value))
    (row column : Z) :
  let sheet := FakeWorksheet data in
  (1 ≤ row → 1 ≤ column →
     cell sheet row column
     = default VNone (data !! Z.to_nat (row - 1)
                        ≫= fun r => r !! Z.to_nat (column - 1))) ∧
  (1 ≤ row → 1 ≤ column →
     default 0 (max_row sheet) < row ∨ default 0 (max_column sheet) < column →
     cell sheet row column = VNone) ∧
  cell sheet 0 column = cell sheet (Z.of_nat (length data)) column.
Proof.
  intros sheet.
  assert (Hcell : 1 ≤ row → 1 ≤ column →
    cell sheet row column
    = default VNone (data !! Z.to_nat (row - 1)
                       ≫= fun r => r !! Z.to_nat (column - 1))).
  { intros Hrow Hcol. cbn [cell sheet FakeWorksheet]. unfold py_index.
    destruct (Z.ltb_spec (row - 1) 0) as [?|_]; [lia|].
    destruct (data !! Z.to_nat (row - 1)) as [r|]; [|done]. cbn.
    destruct (Z.ltb_spec (column - 1) 0) as [?|_]; [lia|].
    by destruct (r !! Z.to_nat (column - 1)). }
  split; [done|]. split.
  - intros Hrow Hcol Hout. rewrite Hcell by done.
    cbn [max_row max_column sheet FakeWorksheet from_option id] in Hout.
    destruct (data !! Z.to_nat (row - 1)) as [r|] eqn:Er; [|done]. cbn.
    rewrite lookup_ge_None_2; [done|].
    pose proof (lookup_lt_Some _ _ _ Er) as Hlt.
    destruct Hout as [Hout|Hout]; [lia|].
    pose proof (foldr_max_ge (length <$> data) (length r)) as Hmax.
    assert (Hin : length r ∈ length <$> data).
    { apply list_elem_of_fmap. exists r. split; [done|].
      by eapply list_elem_of_lookup_2. }
    specialize (Hmax Hin). lia.
  - cbn [cell sheet FakeWorksheet]. unfold py_index at 1 3.
    change (0 - 1 <? 0) with true.
    destruct data as [|r0 data']; [done|].
    destruct (Z.leb_spec 0 (Z.of_nat (length (r0 :: data')) + (0 - 1)))
      as [_|?]; [|cbn [length] in *; lia].
    destruct (Z.ltb_spec (Z.of_nat (length (r0 :: data')) - 1) 0)
      as [?|_]; [cbn [length] in *; lia|].
    by replace (Z.of_nat (length (r0 :: data')) + (0 - 1))
      with (Z.of_nat (length (r0 :: data')) - 1) by lia.
Qed.

(** ** The report *)

Section report.

Lemma str_le_total (a b : pystr) : str_le a b = true ∨ str_le b a = true.
Proof.
  revert b. induction a as [|x a IH]; intros [|y b]; cbn; auto.
  destruct (N.ltb_spec x y); [auto|]. destruct (N.ltb_spec y x); [auto|].
  assert (x = y) by lia. subst y. rewrite N.eqb_refl. apply IH.
Qed.

Lemma str_le_trans (a b c : pystr) :
  str_le a b = true → str_le b c = true → str_le a c = true.
Proof.
  revert b c. induction a as [|x a IH]; intros [|y b] [|z c]; cbn; try done.
  destruct (N.ltb_spec x y), (N.ltb_spec y z), (N.ltb_spec x z);
    try done; try lia;
    destruct (N.eqb_spec x y), (N.eqb_spec y z), (N.eqb_spec x z);
    try done; try lia.
  apply IH.
Qed.

Global Instance str_le_rel_total : Total str_le_rel.
Proof. intros a b. apply str_le_total. Qed.

Global Instance str_le_rel_trans : Transitive str_le_rel.
Proof. intros a b c. apply str_le_trans. Qed.

Lemma items_loop (f : pystr → pystr) (l acc : list pystr) :
  fold_left (fun lines msg => lines ++ [f msg]) l acc = acc ++ (f <$> l).
Proof.
  revert acc. induction l as [|m l IH]; intros acc; cbn [fold_left fmap list_fmap].
  - by rewrite app_nil_r.
  - rewrite IH. by rewrite <- app_assoc.
Qed.

Lemma blocks_loop (messages : Messages) (order acc : list pystr) :
  fold_left (fun lines teacher =>
    let lines := lines ++ [py "=== " ++ teacher ++ py " 선생님 ==="] in
    fold_left (fun lines msg => lines ++ [py "- " ++ msg])
      (default [] (messages !! teacher)) lines)
    order acc
  = acc ++ (order ≫= report_block messages).
Proof.
  revert acc. induction order as [|t order IH]; intros acc;
    cbn [fold_left mbind list_bind].
  - by rewrite app_nil_r.
  - rewrite IH. rewrite (items_loop (fun msg => py "- " ++ msg)).
    unfold report_block. by rewrite <- !app_assoc.
Qed.

Lemma format_report_lines (messages : Messages) :
  messages ≠ ∅ →
  format_report messages
  = join [LF] (sorted (map_to_list messages).*1 ≫= report_block messages).
Proof.
  intros Hne. unfold format_report.
  rewrite bool_decide_eq_false_2 by done. by rewrite blocks_loop.
Qed.

Lemma join_head (sep p : pystr) (c : N) (rest : list pystr) :
  ∃ tail, join sep ((c :: p) :: rest) = c :: tail.
Proof. destruct rest as [|q rest]; cbn [join app]; by eexists. Qed.

Lemma keys_elem_of {V : Type} (m : gmap (list N) V) (k : pystr) :
  k ∈ (map_to_list m).*1 ↔ is_Some (m !! k).
Proof.
  rewrite list_elem_of_fmap. split.
  - intros ([k' v] & -> & Hkv). apply elem_of_map_to_list in Hkv. by eexists.
  - intros [v Hv]. exists (k, v). split; [done|]. by apply elem_of_map_to_list.
Qed.

Lemma format_report_no_pattern (messages : Messages) :
  format_report messages = no_pattern_found ↔ messages = ∅.
Proof.
  split.
  - intros Hreport. destruct (decide (messages = ∅)) as [|Hne]; [done|].
    exfalso. rewrite format_report_lines in Hreport by done.
    pose proof (merge_sort_Permutation str_le_rel (map_to_list messages).*1)
      as Hperm. fold (sorted (map_to_list messages).*1) in Hperm.
    destruct (sorted (map_to_list messages).*1) as [|t order].
    + apply Permutation_nil in Hperm. apply fmap_nil_inv in Hperm.
      by apply map_to_list_empty_iff in Hperm.
    + cbn [mbind list_bind] in Hreport. unfold report_block at 1 in Hreport.
      change (py "=== ") with ([61; 61; 61; 32]%N) in Hreport.
      cbn [app] in Hreport.
      destruct (join_head [LF] ([61; 61; 32]%N ++ t ++ py " 선생님 ===") 61
                  (((fun msg => py "- " ++ msg)
                      <$> default [] (messages !! t))
                   ++ (order ≫= report_block messages))) as [tail Htail].
      cbn [app] in Htail. rewrite Htail in Hreport.
      unfold no_pattern_found in Hreport. discriminate Hreport.
  - intros ->. unfold format_report. by rewrite bool_decide_eq_true_2.
Qed.

End report.

(** X19. The layout of the report.  It is the text "no problem pattern was
    found" exactly when there are no messages.  Otherwise the teachers come
    in ascending order of their names, compared code point by code point,
    each once; a teacher's block is a header line with the name followed by
    one line "- message" for each message, in the order of the messages;
    and the lines are joined by line feeds. *)
Theorem format_report_layout (messages : Messages) :
  (format_report messages = no_pattern_found ↔ messages = ∅) ∧
  ∃ order,
    (∀ teacher, teacher ∈ order ↔ is_Some (messages !! teacher)) ∧
    NoDup order ∧
    StronglySorted str_le_rel order ∧
    (messages ≠ ∅ →
       format_report messages = join [LF] (order ≫= report_block messages)).
Proof.
  split; [apply format_report_no_pattern|].
  exists (sorted (map_to_list messages).*1).
  pose proof (merge_sort_Permutation str_le_rel (map_to_list messages).*1)
    as Hperm. fold (sorted (map_to_list messages).*1) in Hperm.
  split; [|split; [|split]].
  - intros teacher. rewrite Hperm. apply keys_elem_of.
  - rewrite Hperm. apply NoDup_fst_map_to_list.
  - apply StronglySorted_merge_sort; apply _.
  - apply format_report_lines.
Qed.



(** ** The integer lists of the form *)

Section numerals.

Lemma py_ascii (a : ascii) (s : string) :
  (N_of_ascii a < 128)%N → py (String a s) = N_of_ascii a :: py s.
Proof.
  intros Ha. unfold py. cbn [list_ascii_of_string fmap list_fmap utf8_go].
  by rewrite (proj2 (N.ltb_lt _ _) Ha).
Qed.

Lemma py_string_of_uint (d : Decimal.uint) :
  py (NilEmpty.string_of_uint d) = digit_chars (uint_values d).
Proof.
  induction d; cbn [NilEmpty.string_of_uint uint_values]; [done|..];
    (rewrite py_ascii by done); rewrite IHd; reflexivity.
Qed.

Lemma py_nz_string_of_uint (d : Decimal.uint) :
  py (NilZero.string_of_uint d) = digit_chars (nz_values d).
Proof. destruct d; first [reflexivity | exact (py_string_of_uint _)]. Qed.

Lemma uint_values_digits (d : Decimal.uint) :
  Forall (fun v => (v < 10)%N) (uint_values d).
Proof. induction d; cbn [uint_values]; constructor; first [lia | done]. Qed.

Lemma nz_values_digits (d : Decimal.uint) :
  nz_values d ≠ [] ∧ Forall (fun v => (v < 10)%N) (nz_values d).
Proof.
  split; [by destruct d|].
  destruct d; first [exact (uint_values_digits _) | repeat constructor].
Qed.

Lemma horner_of_uint_acc (d : Decimal.uint) (acc : positive) :
  Z.pos (Pos.of_uint_acc d acc) = horner (Z.pos acc) (uint_values d).
Proof.
  revert acc. induction d; intros acc;
    cbn [Pos.of_uint_acc uint_values]; [done|..];
    rewrite IHd; unfold horner; cbn [fold_left]; f_equal; lia.
Qed.

Lemma horner_of_uint (d : Decimal.uint) :
  Z.of_N (Pos.of_uint d) = horner 0 (uint_values d).
Proof.
  induction d; cbn [Pos.of_uint uint_values]; [done|exact IHd|..];
    exact (horner_of_uint_acc d _).
Qed.

Lemma horner_nz_values (d : Decimal.uint) :
  horner 0 (nz_values d) = Z.of_N (Pos.of_uint d).
Proof. destruct d; first [reflexivity | symmetry; exact (horner_of_uint _)]. Qed.

(** The text of an integer: a minus sign when it is negative, and the
    digits of its absolute value. *)
Lemma str_of_Z_chars (z : Z) :
  ∃ vs, vs ≠ [] ∧ Forall (fun v => (v < 10)%N) vs ∧ Z.abs z = horner 0 vs ∧
    str_of_Z z = (if z <? 0 then [45%N] else []) ++ digit_chars vs.
Proof.
  destruct z as [|p|p].
  - exists [0%N]. split; [done|]. split; [repeat constructor|]. by split.
  - exists (nz_values (Pos.to_uint p)).
    destruct (nz_values_digits (Pos.to_uint p)) as [Hne Hdig].
    split; [done|]. split; [done|]. split.
    + rewrite horner_nz_values, DecimalPos.Unsigned.of_to. done.
    + unfold str_of_Z.
      change (Z.to_int (Z.pos p)) with (Decimal.Pos (Pos.to_uint p)).
      cbn [NilZero.string_of_int Z.ltb Z.compare app].
      apply py_nz_string_of_uint.
  - exists (nz_values (Pos.to_uint p)).
    destruct (nz_values_digits (Pos.to_uint p)) as [Hne Hdig].
    split; [done|]. split; [done|]. split.
    + rewrite horner_nz_values, DecimalPos.Unsigned.of_to. done.
    + unfold str_of_Z.
      change (Z.to_int (Z.neg p)) with (Decimal.Neg (Pos.to_uint p)).
      cbn [NilZero.string_of_int Z.ltb Z.compare app].
      rewrite py_ascii by done. by rewrite py_nz_string_of_uint.
Qed.

Lemma digit_char_facts (v : N) :
  (v < 10)%N →
  decimal_value (48 + v) = Some v ∧ is_space (48 + v) = false ∧
  (48 + v =? 95)%N = false ∧ (48 + v =? 43)%N = false ∧
  (48 + v =? 45)%N = false ∧ (48 + v =? 44)%N = false.
Proof.
  intros Hv.
  assert (H : (v = 0 ∨ v = 1 ∨ v = 2 ∨ v = 3 ∨ v = 4 ∨ v = 5 ∨ v = 6 ∨ v = 7
               ∨ v = 8 ∨ v = 9)%N) by lia.
  repeat (destruct H as [->|H]; [vm_compute; repeat split; reflexivity|]).
  subst v. vm_compute. repeat split; reflexivity.
Qed.

Lemma int_digits_chars (vs : list N) (acc : Z) :
  Forall (fun v => (v < 10)%N) vs →
  int_digits acc (digit_chars vs) = Some (horner acc vs).
Proof.
  revert acc. induction vs as [|v vs IH]; intros acc Hvs; [done|].
  apply Forall_cons in Hvs as [Hv Hvs].
  destruct (digit_char_facts v Hv) as (Hd & _ & Hu & _).
  change (digit_chars (v :: vs)) with ((48 + v)%N :: digit_chars vs).
  cbn [int_digits]. rewrite Hu, Hd. exact (IH _ Hvs).
Qed.

Lemma int_unsigned_chars (vs : list N) :
  vs ≠ [] → Forall (fun v => (v < 10)%N) vs →
  int_unsigned (digit_chars vs) = Some (horner 0 vs).
Proof.
  destruct vs as [|v vs]; [done|]. intros _ [Hv Hvs]%Forall_cons.
  destruct (digit_char_facts v Hv) as (Hd & _).
  change (digit_chars (v :: vs)) with ((48 + v)%N :: digit_chars vs).
  cbn [int_unsigned]. rewrite Hd, int_digits_chars by done.
  unfold horner. cbn [fold_left]. do 2 f_equal; lia.
Qed.

(** The characters of the text of an integer: the minus sign and the ten
    ASCII digits. *)
Lemma str_of_Z_alphabet (z : Z) :
  str_of_Z z ≠ [] ∧
  Forall (fun c => is_space c = false ∧ c ≠ 44%N) (str_of_Z z).
Proof.
  destruct (str_of_Z_chars z) as (vs & Hne & Hdig & _ & ->).
  assert (Hvs : Forall (fun c => is_space c = false ∧ c ≠ 44%N)
                  (digit_chars vs)).
  { unfold digit_chars. rewrite Forall_fmap.
    eapply Forall_impl; [exact Hdig|]. intros v Hv. cbn.
    destruct (digit_char_facts v Hv) as (_ & Hs & _ & _ & _ & Hc).
    split; [done|]. by apply N.eqb_neq. }
  split.
  - destruct vs; [done|]. by destruct (z <? 0).
  - apply Forall_app. split; [|done].
    destruct (z <? 0); [|constructor]. by repeat constructor.
Qed.

End numerals.

Section strips.

Lemma lstrip_by_keep (cls : char → bool) (s : pystr) :
  Forall (fun c => cls c = false) s → lstrip_by cls s = s.
Proof. destruct 1 as [|c s Hc _]; [done|]. cbn. by rewrite Hc. Qed.

Lemma strip_by_keep (cls : char → bool) (s : pystr) :
  Forall (fun c => cls c = false) s → strip_by cls s = s.
Proof.
  intros Hs. unfold strip_by. rewrite (lstrip_by_keep cls s Hs).
  rewrite lstrip_by_keep by (by apply Forall_reverse).
  apply reverse_involutive.
Qed.

Lemma lstrip_by_space (s : pystr) : lstrip_by is_space s = lstrip s.
Proof. induction s as [|c s IH]; [done|]. cbn. by rewrite IH. Qed.

Lemma strip_by_space (s : pystr) : strip_by is_space s = strip s.
Proof. unfold strip_by, strip, rstrip. by rewrite !lstrip_by_space. Qed.

Lemma lstrip_nil (s : pystr) :
  lstrip s = [] ↔ Forall (fun c => is_space c = true) s.
Proof.
  induction s as [|c s IH]; [done|]. cbn. rewrite Forall_cons.
  destruct (is_space c) eqn:E; [rewrite IH; tauto|].
  split; [done|]. by intros [? _].
Qed.

Lemma lstrip_spaces_iff (s : pystr) :
  Forall (fun c => is_space c = true) (lstrip s)
  ↔ Forall (fun c => is_space c = true) s.
Proof.
  induction s as [|c s IH]; [done|]. cbn.
  destruct (is_space c) eqn:E; [|done]. rewrite IH, Forall_cons. tauto.
Qed.

Lemma strip_nil (s : pystr) :
  strip s = [] ↔ Forall (fun c => is_space c = true) s.
Proof.
  unfold strip, rstrip. rewrite <- lstrip_spaces_iff.
  rewrite <- (Forall_reverse _ (lstrip s)), <- lstrip_nil.
  split; [|by intros ->].
  intros H. apply (f_equal reverse) in H. by rewrite reverse_involutive in H.
Qed.

End strips.

Section splitting.

Variable sep : N.

Lemma split_on_run (run : pystr) : sep ∉ run → split_on sep run = [run].
Proof.
  induction run as [|c run IH]; [done|].
  intros [Hc Hrun]%not_elem_of_cons. cbn [split_on].
  rewrite (proj2 (N.eqb_neq c sep)) by done. by rewrite IH.
Qed.

Lemma split_on_app (run rest : pystr) :
  sep ∉ run → split_on sep (run ++ sep :: rest) = run :: split_on sep rest.
Proof.
  induction run as [|c run IH].
  - intros _. cbn [app split_on]. by rewrite N.eqb_refl.
  - intros [Hc Hrun]%not_elem_of_cons. cbn [app split_on].
    rewrite (proj2 (N.eqb_neq c sep)) by done. by rewrite IH.
Qed.

Lemma split_on_join (parts : list pystr) :
  parts ≠ [] → Forall (fun p => sep ∉ p) parts →
  split_on sep (join [sep] parts) = parts.
Proof.
  induction parts as [|p parts IH]; [done|]. intros _ [Hp Hparts]%Forall_cons.
  destruct parts as [|q parts]; [by apply split_on_run|].
  change (join [sep] (p :: q :: parts))
    with (p ++ sep :: join [sep] (q :: parts)).
  rewrite split_on_app by done. by rewrite IH.
Qed.

End splitting.

Lemma split_on_blank (s : pystr) :
  Forall (fun p => Forall (fun c => is_space c = true) p) (split_on 44%N s)
  ↔ Forall blank_char s.
Proof.
  induction s as [|c s IH]; [by split; repeat constructor|].
  cbn [split_on]. rewrite Forall_cons, <- IH. unfold blank_char at 1.
  destruct (N.eqb_spec c 44) as [->|Hc].
  - rewrite Forall_cons. split; [intros [_ ?]; split; [by right|done]|].
    intros [_ ?]. by split.
  - destruct (split_on 44%N s) as [|p ps].
    + rewrite Forall_singleton, Forall_singleton. split.
      * intros H. split; [by left|constructor].
      * intros [[H|H] _]; [done|done].
    + rewrite !Forall_cons. split.
      * intros [[? ?] ?]. split; [by left|done].
      * intros [[?|?] [? ?]]; done.
Qed.

Lemma filter_all {A : Type} (P : A → Prop) `{∀ x, Decision (P x)}
    (l : list A) :
  Forall P l → filter P l = l.
Proof.
  induction 1 as [|x l Hx _ IH]; [done|].
  by rewrite filter_cons_True, IH.
Qed.

Lemma filter_none {A : Type} (P : A → Prop) `{∀ x, Decision (P x)}
    (l : list A) :
  filter P l = [] ↔ Forall (fun x => ¬ P x) l.
Proof.
  induction l as [|x l IH]; [done|]. rewrite filter_cons, Forall_cons.
  destruct (decide (P x)); [|rewrite IH; tauto].
  split; [done|]. by intros [? _].
Qed.

Lemma int_of_text_str (z : Z) :
  (length (str_of_Z z) ≤ int_max_str_digits)%nat →
  int_of_text (str_of_Z z) = Ok z.
Proof.
  intros Hlen. unfold int_of_text.
  destruct (str_of_Z_alphabet z) as [_ Hchars].
  rewrite strip_by_keep.
  2: { eapply Forall_impl; [exact Hchars|]. intros c [Hs _].
       unfold int_space. by rewrite Hs. }
  assert (Hlimit :
    (int_max_str_digits
     <? length (filter (fun c => is_decimal c = true) (str_of_Z z)))%nat
    = false).
  { apply Nat.ltb_ge.
    pose proof (length_filter (fun c => is_decimal c = true) (str_of_Z z)).
    lia. }
  rewrite Hlimit. clear Hlimit Hlen Hchars.
  destruct (str_of_Z_chars z) as (vs & Hne & Hdig & Habs & ->).
  pose proof (int_unsigned_chars vs Hne Hdig) as Hu.
  destruct (Z.ltb_spec z 0) as [Hneg|Hpos]; cbn [app].
  - change (45 =? 43)%N with false. change (45 =? 45)%N with true.
    cbn match. rewrite Hu. cbn [fmap option_fmap option_map]. f_equal. lia.
  - destruct vs as [|v vs]; [done|].
    apply Forall_cons in Hdig as [Hv _].
    destruct (digit_char_facts v Hv) as (_ & _ & _ & Hplus & Hminus & _).
    change (digit_chars (v :: vs)) with ((48 + v)%N :: digit_chars vs) in *.
    cbv beta iota. rewrite Hplus, Hminus, Hu. f_equal. lia.
Qed.

Lemma int_each_str (l : list Z) :
  Forall (fun p => (length (str_of_Z p) ≤ int_max_str_digits)%nat) l →
  int_each (str_of_Z <$> l) = Ok l.
Proof.
  induction 1 as [|z l Hz _ IH]; [done|].
  cbn [fmap list_fmap int_each]. rewrite (int_of_text_str z Hz).
  change (list_fmap Z (list N) str_of_Z l) with (str_of_Z <$> l).
  by rewrite IH.
Qed.

(** X21. The list of periods that a message shows is read back as it was:
    the text that joins the decimal texts of integers with commas, which is
    how the periods appear in a Pattern B message, gives the list of these
    integers, in their order, when it is read as the form reads its period
    field.  (An integer whose text is longer than the interpreter's limit
    of digits is not one [int] would read, nor [str] write.) *)
Theorem parse_int_list_join (l : list Z) :
  Forall (fun p => (length (str_of_Z p) ≤ int_max_str_digits)%nat) l →
  parse_int_list (join COMMA (str_of_Z <$> l)) = Ok l.
Proof.
  intros Hl. unfold parse_int_list.
  destruct l as [|z l]; [reflexivity|].
  assert (Hparts : Forall (fun p => strip p = p ∧ p ≠ [] ∧ 44%N ∉ p)
                     (str_of_Z <$> (z :: l))).
  { rewrite Forall_fmap. apply Forall_forall. intros p _. cbn.
    destruct (str_of_Z_alphabet p) as [Hne Hchars].
    split; [|split; [done|]].
    - rewrite <- strip_by_space. apply strip_by_keep.
      eapply Forall_impl; [exact Hchars|]. by intros c [? _].
    - intros Hin. rewrite Forall_forall in Hchars.
      by destruct (Hchars _ Hin) as [_ ?]. }
  unfold COMMA. rewrite split_on_join; [|done|].
  2: { eapply Forall_impl; [exact Hparts|]. by intros p (_ & _ & ?). }
  rewrite filter_all.
  2: { eapply Forall_impl; [exact Hparts|]. intros p (-> & ? & _). done. }
  assert (Hstrip : strip <$> (str_of_Z <$> (z :: l)) = str_of_Z <$> (z :: l)).
  { rewrite <- (list_fmap_id (str_of_Z <$> (z :: l))) at 2.
    apply Forall_fmap_ext_1.
    eapply Forall_impl; [exact Hparts|]. by intros p (? & _). }
  rewrite Hstrip. by apply int_each_str.
Qed.

Lemma parse_int_list_join_witness :
  parse_int_list (join COMMA (str_of_Z <$> [1; 4; 5; 7])) = Ok [1; 4; 5; 7].
Proof.
  apply parse_int_list_join.
  apply (bool_decide_unpack _). by vm_compute.
Defined.

Lemma int_each_nil (parts : list pystr) :
  int_each parts = Ok [] ↔ parts = [].
Proof.
  split; [|by intros ->]. destruct parts as [|p parts]; [done|].
  cbn [int_each]. destruct (int_of_text p); [|done].
  by destruct (int_each parts).
Qed.

(** X22. The form reads a field as the empty list, and raises nothing,
    exactly when the text holds nothing but white space and commas: the
    empty text, blanks, and commas with nothing between them all give no
    periods at all (the configuration in which every day counts for
    Pattern B). *)
Theorem parse_int_list_blank (value : pystr) :
  parse_int_list value = Ok [] ↔ Forall blank_char value.
Proof.
  unfold parse_int_list. rewrite int_each_nil, <- split_on_blank.
  set (parts := split_on 44%N value). split.
  - intros H%fmap_nil_inv. apply filter_none in H.
    eapply Forall_impl; [exact H|]. intros p Hp. apply strip_nil.
    destruct (decide (strip p = [])) as [|Hn]; [done|by destruct (Hp Hn)].
  - intros H.
    assert (filter (fun p => strip p ≠ []) parts = []) as ->; [|done].
    apply filter_none. eapply Forall_impl; [exact H|].
    intros p Hp%strip_nil Hn. done.
Qed.
